(** * ProyectoFruta: apple detection backend and monitoring interface

    A shallow embedding of the parts of the repository that the
    specification talks about:

    - [DetectionService]: the statistics store behind [GET /stats] and
      [DELETE /stats] (the [StatsResponse] of [services/api.ts]);
    - [FusionEngine]: the model/heuristic fusion rule;
    - [CameraService]: [start_camera], [toggle_live], [capture_frame]
      and [_update_stats_for_live_mode] as shown in
      [CAMARA_REAL_INTEGRADA.md] and [INTEGRACION_MONITOREO_CAPTURA.md];
    - [StreamRenderer]: [_create_display_frame] of
      [INTEGRACION_VISUAL_STREAMING.md];
    - [Frontend]: [StatsPanel.tsx] and the [handleCapture] handlers of
      [App.tsx].

    Counters are [nat], confidences and rates are rationals ([Q]): the
    code only compares them, takes their maximum or tests them against
    zero, all of which are exact on IEEE doubles.  The two places where
    the interface really rounds a double ([Math.round]) are taken as
    parameters. *)

From Stdlib Require Import QArith Qround.
From stdpp Require Import base strings list gmap fin_maps.

Local Open Scope string_scope.
Local Open Scope nat_scope.

(** ** Data shared by the backend and the interface ([services/api.ts]) *)

(** [DetectionResult.file_paths]. *)
Record FilePaths := {
  original : string;
  roi : option string;
  mask : option string
}.

(** [DetectionResult] ([analysis_details], an untyped bag that no
    modelled operation reads, is left out). *)
Record DetectionResult := {
  timestamp : string;
  classification : string;
  confidence : Q;
  is_fruit : bool;
  fruit_type : string;
  spoiled : bool;
  image_shape : list nat;
  file_paths : FilePaths
}.

(** [StatsResponse.summary.fruits_by_status]. *)
Record FruitsByStatus := {
  OK : nat;
  MALOGRADA : nat
}.

(** [StatsResponse.summary]. *)
Record StatsSummary := {
  total_detections : nat;
  total_fruits : nat;
  total_non_fruits : nat;
  fruits_by_type : gmap string nat;
  fruits_by_status : FruitsByStatus;
  success_rate : Q
}.

(** [StatsResponse]. *)
Record StatsResponse := {
  summary : StatsSummary;
  detection_history : list DetectionResult;
  last_updated : string
}.

(** Sum of the values of a [Record<string, number>]. *)
Definition sum_values (m : gmap string nat) : nat :=
  map_fold (λ _ v acc, v + acc) 0 m.

(** ** The statistics store *)

Module DetectionService.

(** Modelled from the spec: the summary written by [DELETE /stats]
    ([ProyectoFruta/app.py] and [detection_service.py] are not among the
    sources).  The values are the ones listed under "Datos que se
    Resetean": every counter 0, [fruits_by_type] = {}, [fruits_by_status]
    = {OK: 0, MALOGRADA: 0}, [success_rate] = 0.0. *)
Definition empty_summary : StatsSummary :=
  {| total_detections := 0;
     total_fruits := 0;
     total_non_fruits := 0;
     fruits_by_type := ∅;
     fruits_by_status := {| OK := 0; MALOGRADA := 0 |};
     success_rate := 0%Q |}.

(** Modelled from the spec: [reset_stats] (section 4.6, [reset()]): the
    summary is zeroed and the history cleared in one step; [now] is the
    clock reading stored as [last_updated]. *)
Definition reset_stats (now : string) (st : StatsResponse) : StatsResponse :=
  {| summary := empty_summary;
     detection_history := [];
     last_updated := now |}.

(** Modelled from the spec: [get_stats] (section 4.6, [read()]) returns
    the snapshot: summary, history and last-updated time. *)
Definition get_stats (st : StatsResponse) : StatsResponse := st.

(** Modelled from the spec: one more fruit of type [t] in
    [fruits_by_type] ("Frutas por tipo: se incrementa el tipo
    correspondiente"); a type not counted before starts from 0. *)
Definition bump (t : string) (m : gmap string nat) : gmap string nat :=
  <[t := S (default 0 (m !! t))]> m.

(** Modelled from the spec: [success_rate] is derived,
    [fruits_by_status.OK / total_fruits], and 0 when there is no fruit
    (section 3, StatsSummary). *)
Definition rate (ok total : nat) : Q :=
  if decide (total = 0) then 0%Q
  else (Z.of_nat ok # Pos.of_nat total)%Q.

(** Modelled from the spec: the history has a capped length and the
    oldest entries are evicted first (section 4.6). *)
Definition capped (cap : nat) (h : list DetectionResult) : list DetectionResult :=
  drop (length h - cap) h.

Section Store.

(** The length the history is capped at; the spec gives no number. *)
Variable max_history : nat.

(** Modelled from the spec: [DetectionService._update_stats]
    ([detection_service.py] is not among the sources).  Section 4.6,
    [record]: the result is appended to the capped history and the
    counters are updated as one operation; which counter moves is the
    list "Datos que se Acumulan" of [CAMARA_REAL_INTEGRADA.md]: the total
    always, fruits / type / OK-or-MALOGRADA when the result is a fruit,
    non-fruits otherwise, and the success rate is recomputed. *)
Definition _update_stats (now : string) (result : DetectionResult)
    (st : StatsResponse) : StatsResponse :=
  let s := summary st in
  let by_status := fruits_by_status s in
  let s' :=
    if is_fruit result then
      let by_status' :=
        if spoiled result
        then {| OK := OK by_status; MALOGRADA := S (MALOGRADA by_status) |}
        else {| OK := S (OK by_status); MALOGRADA := MALOGRADA by_status |} in
      {| total_detections := S (total_detections s);
         total_fruits := S (total_fruits s);
         total_non_fruits := total_non_fruits s;
         fruits_by_type := bump (fruit_type result) (fruits_by_type s);
         fruits_by_status := by_status';
         success_rate := rate (OK by_status') (S (total_fruits s)) |}
    else
      {| total_detections := S (total_detections s);
         total_fruits := total_fruits s;
         total_non_fruits := S (total_non_fruits s);
         fruits_by_type := fruits_by_type s;
         fruits_by_status := by_status;
         success_rate := rate (OK by_status) (total_fruits s) |} in
  {| summary := s';
     detection_history := capped max_history (detection_history st ++ [result]);
     last_updated := now |}.

(** The mutating requests the store serves, each with the clock reading
    it stamps. *)
Inductive StoreOp :=
  | OpRecord (now : string) (result : DetectionResult)
  | OpReset (now : string).

Definition apply_op (st : StatsResponse) (op : StoreOp) : StatsResponse :=
  match op with
  | OpRecord now result => _update_stats now result st
  | OpReset now => reset_stats now st
  end.

(** The store after a sequence of requests. *)
Definition run (ops : list StoreOp) (st : StatsResponse) : StatsResponse :=
  foldl apply_op st ops.

(** The file as first created: the state a reset leaves. *)
Definition fresh (now : string) : StatsResponse :=
  {| summary := empty_summary; detection_history := []; last_updated := now |}.

(** The invariant of section 3. *)
Definition consistent (s : StatsSummary) : Prop :=
  total_fruits s = sum_values (fruits_by_type s)
  ∧ total_fruits s = OK (fruits_by_status s) + MALOGRADA (fruits_by_status s)
  ∧ total_detections s = total_fruits s + total_non_fruits s.

End Store.

End DetectionService.

(** ** The fusion rule *)

Module FusionEngine.

(** [ClassificationVote.label]. *)
Inductive Label := acceptable | defective | unknown | no_object.

(** [ClassificationVote.source]. *)
Inductive Source := model | heuristic | fused.

Record ClassificationVote := {
  label : Label;
  vote_confidence : Q;
  source : Source
}.

Definition Label_eqb (a b : Label) : bool :=
  match a, b with
  | acceptable, acceptable | defective, defective
  | unknown, unknown | no_object, no_object => true
  | _, _ => false
  end.

(** The two labels the sources can agree on. *)
Definition is_verdict (l : Label) : bool :=
  match l with
  | acceptable | defective => true
  | unknown | no_object => false
  end.

(** [max(a, b)]: the second argument only when it is strictly larger. *)
Definition Qmax (a b : Q) : Q := if Qle_bool b a then a else b.

(** [c > t]. *)
Definition exceeds (c t : Q) : bool := negb (Qle_bool c t).

(** Modelled from the spec: the FusionEngine of section 4.4 (the fusion
    code lives in [detection_service.py] / [detectar_fruta.py], which are
    not among the sources).  [roi_valid] is the RoiCandidate's validity
    flag; with an invalid candidate both classifiers are skipped and the
    votes are not looked at.  When the sources agree on acceptable or
    defective the fused vote carries that label with the larger
    confidence; otherwise the heuristic's vote is preferred when its
    confidence exceeds the trust threshold, the model's vote if not. *)
Definition fuse (trust_threshold : Q) (roi_valid : bool)
    (m h : ClassificationVote) : ClassificationVote :=
  if negb roi_valid then
    {| label := no_object; vote_confidence := 1%Q; source := fused |}
  else if Label_eqb (label m) (label h) && is_verdict (label m) then
    {| label := label m;
       vote_confidence := Qmax (vote_confidence m) (vote_confidence h);
       source := fused |}
  else if exceeds (vote_confidence h) trust_threshold then h
  else m.

End FusionEngine.

(** ** The camera service *)

Module CameraService.

(** A [cv2.VideoCapture]: the device index it was built for and what
    [isOpened()] answers. *)
Record VideoCapture := {
  camera_index : nat;
  isOpened : bool
}.

(** The fields of [CameraService] the shown methods read or write.
    [detection_service] is the attached [DetectionService], given by the
    statistics it owns.  [handles_opened] is a ghost counter: how many
    [cv2.VideoCapture(...)] this service has constructed so far. *)
Record State := {
  is_running : bool;
  is_live : bool;
  cap : option VideoCapture;
  last_live_classification : option string;
  detection_service : option StatsResponse;
  handles_opened : nat
}.

Definition with_running (running : bool) (s : State) : State :=
  {| is_running := running;
     is_live := is_live s;
     cap := cap s;
     last_live_classification := last_live_classification s;
     detection_service := detection_service s;
     handles_opened := handles_opened s |}.

Definition with_cap (c : option VideoCapture) (s : State) : State :=
  {| is_running := is_running s;
     is_live := is_live s;
     cap := c;
     last_live_classification := last_live_classification s;
     detection_service := detection_service s;
     handles_opened := handles_opened s |}.

Definition with_live (live : bool) (s : State) : State :=
  {| is_running := is_running s;
     is_live := live;
     cap := cap s;
     last_live_classification := last_live_classification s;
     detection_service := detection_service s;
     handles_opened := handles_opened s |}.

Definition with_stats (last : option string) (ds : option StatsResponse)
    (s : State) : State :=
  {| is_running := is_running s;
     is_live := is_live s;
     cap := cap s;
     last_live_classification := last;
     detection_service := ds;
     handles_opened := handles_opened s |}.

(** [self.cap and self.cap.isOpened()] *)
Definition healthy (c : option VideoCapture) : bool :=
  match c with
  | Some v => isOpened v
  | None => false
  end.


(** The classifications [_update_stats_for_live_mode] never records. *)
Definition skipped : list string := ["no_fruta"; "desconocido"].

(** The guard of [_update_stats_for_live_mode]:
    [self.last_live_classification != current_classification and
     current_classification not in ["no_fruta", "desconocido"]]. *)
Definition live_write_due (s : State) (current_classification : string) : bool :=
  negb (bool_decide (last_live_classification s = Some current_classification))
  && negb (bool_decide (current_classification ∈ skipped)).

Section Service.

(** The world outside: [device i n] tells whether the [n]-th
    [cv2.VideoCapture] this service constructs, for camera [i], comes
    back opened. *)
Variable device : nat → nat → bool.

(** The cap of the statistics history (see [DetectionService]). *)
Variable max_history : nat.

(** [self.detection_service._update_stats(result)] can raise (the
    statistics file cannot be written, no event loop can be made):
    [update_raises result st] is [Some after] when the call raises on the
    statistics [st], leaving them as [after], and [None] when it
    returns. *)
Variable update_raises : DetectionResult → StatsResponse → option StatsResponse.

(** The call [self.detection_service._update_stats(result)] on the
    statistics [st]: what it leaves, and whether it returned. *)
Definition call_update_stats (result : DetectionResult) (st : StatsResponse)
    : StatsResponse * bool :=
  match update_raises result st with
  | Some after => (after, false)
  | None =>
      (DetectionService._update_stats max_history (timestamp result) result st, true)
  end.

(** [self.cap = cv2.VideoCapture(camera_index)]: one more handle is
    constructed, and the device decides whether it is opened. *)
Definition open_capture (camera_index : nat) (s : State) : State :=
  {| is_running := is_running s;
     is_live := is_live s;
     cap := Some {| camera_index := camera_index;
                    isOpened := device camera_index (handles_opened s) |};
     last_live_classification := last_live_classification s;
     detection_service := detection_service s;
     handles_opened := S (handles_opened s) |}.

(** Modelled from the spec: the rest of [start_camera], elided in the
    source ("# ... resto del codigo"), after the handle has been
    constructed (section 4.1, [start]).  An opened handle is configured
    and the loop thread started; a handle that is not opened is retried
    once, and when the retry fails too the start fails and the camera is
    left stopped with no handle ([is_running = False], [cap = None], the
    "Error" row of the state table). *)
Definition finish_start (camera_index : nat) (s : State) : bool * State :=
  if healthy (cap s) then (true, with_running true s)
  else
    let retried := open_capture camera_index (with_cap None s) in
    if healthy (cap retried) then (true, with_running true retried)
    else (false, with_running false (with_cap None retried)).

(** [start_camera]: nothing to do when the camera is already running
    with an opened handle; otherwise a previous handle is released, the
    half second of waiting leaves the state as it is, and a new handle
    is constructed. *)
Definition start_camera (camera_index : nat) (s : State) : bool * State :=
  if is_running s && healthy (cap s) then (true, s)
  else
    let released := with_cap None s in
    let opened := open_capture camera_index released in
    finish_start camera_index opened.

(** [toggle_live]: a camera that is not running is started first, and
    [False] is returned when that fails; then the flag is flipped and
    returned. *)
Definition toggle_live (s : State) : bool * State :=
  let flip (s : State) := (negb (is_live s), with_live (negb (is_live s)) s) in
  if negb (is_running s) then
    let '(started, s1) := start_camera 0 s in
    if negb started then (false, s1) else flip s1
  else flip s.

(** The statistics update at the end of [capture_frame]:
    [if hasattr(self, 'detection_service') and self.detection_service:
       try: ... self.detection_service._update_stats(result)
       except Exception as e: print(...)].
    An update that raises is caught and printed, and the capture goes
    on.  (The service's own in-memory counters, [self.stats], are not
    the statistics store and are left out.) *)
Definition record_capture (result : DetectionResult) (s : State) : State :=
  match detection_service s with
  | Some st =>
      with_stats (last_live_classification s)
        (Some (call_update_stats result st).1) s
  | None => s
  end.

(** [capture_frame]: a camera that is not running is started first, and
    [None] is returned when that fails.  The middle of the method is
    elided in the source ("# ... resto del código"; the declared type is
    [Optional]): [captured] is what it comes to, [None] when it returns
    [None] itself, [Some result] when it reaches the statistics update
    with [result], which is then returned. *)
Definition capture_frame (captured : option DetectionResult) (s : State)
    : option DetectionResult * State :=
  let rest (s : State) :=
    match captured with
    | Some result => (Some result, record_capture result s)
    | None => (None, s)
    end in
  if negb (is_running s) then
    let '(started, s1) := start_camera 0 s in
    if negb started then (None, s1) else rest s1
  else rest s.

(** What a call of [_update_stats_for_live_mode] did. *)
Inductive LiveCall := not_due | recorded | raised.

(** [_update_stats_for_live_mode], as shown: when the guard holds the
    result is handed to [self.detection_service._update_stats]; with no
    detection service that is an [AttributeError], and nothing here
    catches what the update raises.  Nothing is assigned to
    [self.last_live_classification]. *)
Definition _update_stats_for_live_mode (result : DetectionResult) (s : State)
    : State * LiveCall :=
  let current_classification := classification result in
  if live_write_due s current_classification then
    match detection_service s with
    | Some st =>
        let '(after, returned) := call_update_stats result st in
        (with_stats (last_live_classification s) (Some after) s,
         if returned then recorded else raised)
    | None => (s, raised)
    end
  else (s, not_due).

(** Consecutive calls of [_update_stats_for_live_mode], one for each
    frame's result, each on the state the call before left: the final
    state, the results recorded, oldest first, and whether a call
    raised, which ends the run. *)
Fixpoint live_run (results : list DetectionResult) (s : State)
    : State * list DetectionResult * bool :=
  match results with
  | [] => (s, [], false)
  | r :: rest =>
      let '(s1, call) := _update_stats_for_live_mode r s in
      match call with
      | raised => (s1, [], true)
      | not_due => live_run rest s1
      | recorded =>
          let '(s2, ws, crashed) := live_run rest s1 in
          (s2, r :: ws, crashed)
      end
  end.

End Service.

End CameraService.

(** ** The stream renderer *)

Module StreamRenderer.

(** An OpenCV colour, in B, G, R order. *)
Definition BGR : Type := nat * nat * nat.

Definition green : BGR := (0, 255, 0).
Definition red : BGR := (0, 0, 255).
Definition white : BGR := (255, 255, 255).

(** The colour the documentation's table gives for "desconocido",
    [(255, 255, 0)], and yellow as OpenCV would need it. *)
Definition documented_yellow : BGR := (255, 255, 0).
Definition yellow : BGR := (0, 255, 255).

(** [needle in hay] on Python strings. *)
Fixpoint contains (needle hay : string) : bool :=
  String.prefix needle hay
  || match hay with
     | EmptyString => false
     | String _ rest => contains needle rest
     end.

(** What [cv2.putText] writes. *)
Inductive Text :=
  | Verdict (final_label source : string) (final_conf : Q)
  | Instructions.

(** The drawing calls made on the copy of the frame, in order. *)
Inductive DrawOp :=
  | AddWeighted (mask : list nat)
  | Rectangle (pt1 pt2 : nat * nat) (color : BGR) (thickness : nat)
  | PutText (text : Text) (org : nat * nat) (color : BGR) (thickness : nat).

(** [mask.any()] over the mask's pixels. *)
Definition any (mask : list nat) : bool :=
  existsb (λ p, negb (p =? 0)) mask.

(** [_create_display_frame]: the copy of the frame and the drawing
    calls made on it.  The text position [max(15, y - 10)] is the same
    on naturals, where [y - 10] stops at 0. *)
Definition _create_display_frame {Frame : Type} (frame : Frame)
    (mask : option (list nat)) (bbox : option (nat * nat * nat * nat))
    (final_label : string) (final_conf : Q) (source : string)
    : Frame * list DrawOp :=
  let display := frame in
  let overlay :=
    match mask with
    | Some m => if any m then [AddWeighted m] else []
    | None => []
    end in
  let box :=
    match bbox with
    | Some (x, y, w, h) =>
        let color := if contains "buena" final_label then green else red in
        [Rectangle (x, y) (x + w, y + h) color 2;
         PutText (Verdict final_label source final_conf)
           (x, Nat.max 15 (y - 10)) white 2]
    | None => []
    end in
  (display, (overlay ++ box ++ [PutText Instructions (10, 20) white 1])%list).

(** The colours of the rectangles a frame was drawn with. *)
Definition box_colors {Frame : Type} (display : Frame * list DrawOp) : list BGR :=
  omap (λ op, match op with Rectangle _ _ c _ => Some c | _ => None end) display.2.

End StreamRenderer.

(** ** The interface *)

Module Frontend.

(** A JavaScript number used as a condition. *)
Definition truthy (n : nat) : bool := negb (n =? 0).

(** [a || b] on numbers. *)
Definition js_or (a b : nat) : nat := if truthy a then a else b.

(** What [StatsPanel] computes before rendering. *)
Record StatsPanelView := {
  total : nat;
  successRate : Z;
  totalDetections : nat;
  totalFruits : nat;
  totalNonFruits : nat;
  backendSuccessRate : Z
}.

Section StatsPanel.

(** [a / b] on doubles, and [Math.round(x * 100)]. *)
Variable divide : nat → nat → Q.
Variable round_percent : Q → Z.

(** [StatsPanel({ goodCount, badCount, stats })], lines 13-22. *)
Definition StatsPanel (goodCount badCount : nat) (stats : option StatsResponse)
    : StatsPanelView :=
  let total := goodCount + badCount in
  let successRate :=
    if 0 <? total then round_percent (divide goodCount total) else 0%Z in
  let backendStats := summary <$> stats in
  {| total := total;
     successRate := successRate;
     totalDetections :=
       match backendStats with
       | Some b => js_or (total_detections b) total
       | None => total
       end;
     totalFruits :=
       match backendStats with
       | Some b => js_or (total_fruits b) total
       | None => total
       end;
     totalNonFruits :=
       match backendStats with
       | Some b => js_or (total_non_fruits b) 0
       | None => 0
       end;
     backendSuccessRate :=
       match backendStats with
       | Some b =>
           if negb (Qeq_bool (success_rate b) 0)
           then round_percent (success_rate b)
           else successRate
       | None => successRate
       end |}.

End StatsPanel.

(** The [useState] cells of [App] that the capture path reads or
    writes. *)
Record AppState := {
  goodCount : nat;
  badCount : nat;
  isLive : bool;
  isProcessing : bool;
  lastClassification : option string;
  autoClassification : option string;
  confidence_level : nat;
  isAwaitingConfirmation : bool;
  detectionResult : option DetectionResult;
  stats : option StatsResponse;
  error : option string;
  backendConnected : option bool;
  isStreaming : bool
}.

(** The endpoints of [config/api.ts] and their verbs. *)
Inductive Endpoint :=
  | HEALTH | DETECT | STATS | HISTORY | CAPTURE | TOGGLE_LIVE.

Inductive Method := GET | POST | DELETE.

(** A function handed to [setTimeout]. *)
Inductive Callback := simulation_done.

(** What a handler asks of the outside: a [fetch], or a timer. *)
Inductive Effect :=
  | Fetch (m : Method) (e : Endpoint)
  | SetTimeout (cb : Callback) (ms : nat).

Definition setIsProcessing (b : bool) (s : AppState) : AppState :=
  {| goodCount := goodCount s; badCount := badCount s; isLive := isLive s;
     isProcessing := b;
     lastClassification := lastClassification s;
     autoClassification := autoClassification s;
     confidence_level := confidence_level s;
     isAwaitingConfirmation := isAwaitingConfirmation s;
     detectionResult := detectionResult s; stats := stats s; error := error s;
     backendConnected := backendConnected s; isStreaming := isStreaming s |}.

(** The body of the timer in [simulateAutoClassification]; [isGood] and
    [confidenceLevel] are its two [Math.random()] draws. *)
Definition simulation_finished (isGood : bool) (confidenceLevel : nat)
    (s : AppState) : AppState :=
  let classification := if isGood then "BUENA" else "MALA" in
  {| goodCount := goodCount s; badCount := badCount s; isLive := isLive s;
     isProcessing := false;
     lastClassification := Some classification;
     autoClassification := Some classification;
     confidence_level := confidenceLevel;
     isAwaitingConfirmation := true;
     detectionResult := detectionResult s; stats := stats s; error := error s;
     backendConnected := backendConnected s; isStreaming := isStreaming s |}.

(** [simulateAutoClassification]: the processing flag is raised and the
    classification is scheduled two seconds later. *)
Definition simulateAutoClassification (s : AppState) : AppState * list Effect :=
  (setIsProcessing true s, [SetTimeout simulation_done 2000]).

(** [handleDetectionResult]: the counters follow the result and the
    statistics are reloaded. *)
Definition handleDetectionResult (result : DetectionResult) (s : AppState)
    : AppState * list Effect :=
  let good := if is_fruit result && negb (spoiled result)
              then S (goodCount s) else goodCount s in
  let bad := if is_fruit result && spoiled result
             then S (badCount s) else badCount s in
  let last := if is_fruit result
              then Some (if spoiled result then "MALA" else "BUENA")
              else lastClassification s in
  ({| goodCount := good; badCount := bad; isLive := isLive s;
      isProcessing := isProcessing s;
      lastClassification := last;
      autoClassification := autoClassification s;
      confidence_level := confidence_level s;
      isAwaitingConfirmation := isAwaitingConfirmation s;
      detectionResult := Some result; stats := stats s; error := None;
      backendConnected := backendConnected s; isStreaming := isStreaming s |},
   [Fetch GET STATS]).

(** [handleApiError]. *)
Definition handleApiError (errorMessage : string) (s : AppState) : AppState :=
  {| goodCount := goodCount s; badCount := badCount s; isLive := isLive s;
     isProcessing := isProcessing s;
     lastClassification := lastClassification s;
     autoClassification := autoClassification s;
     confidence_level := confidence_level s;
     isAwaitingConfirmation := isAwaitingConfirmation s;
     detectionResult := None; stats := stats s; error := Some errorMessage;
     backendConnected := backendConnected s; isStreaming := isStreaming s |}.

(** [loadStats], once [GET /stats] has answered. *)
Definition loadStats_resolved (statsData : StatsResponse) (s : AppState) : AppState :=
  {| goodCount := OK (fruits_by_status (summary statsData));
     badCount := MALOGRADA (fruits_by_status (summary statsData));
     isLive := isLive s; isProcessing := isProcessing s;
     lastClassification := lastClassification s;
     autoClassification := autoClassification s;
     confidence_level := confidence_level s;
     isAwaitingConfirmation := isAwaitingConfirmation s;
     detectionResult := detectionResult s; stats := Some statsData;
     error := error s;
     backendConnected := backendConnected s; isStreaming := isStreaming s |}.

(** [src/App.tsx]. *)
Module App.

(** [handleCapture], lines 157-161. *)
Definition handleCapture (s : AppState) : AppState * list Effect :=
  if isLive s then simulateAutoClassification s else (s, []).

End App.

(** The [App.tsx] reproduced in [INTEGRACION_VISUAL_STREAMING.md]. *)
Module AppStreaming.

(** [handleCapture], up to its first [await]: with live mode on and the
    backend connected the capture is requested, with live mode on alone
    the simulation runs. *)
Definition handleCapture (s : AppState) : AppState * list Effect :=
  if isLive s && bool_decide (backendConnected s = Some true) then
    (setIsProcessing true s, [Fetch POST CAPTURE])
  else if isLive s then simulateAutoClassification s
  else (s, []).

(** [handleCapture] once [POST /capture] has answered:
    [handleDetectionResult(result)], then the [finally] block. *)
Definition handleCapture_resolved (result : DetectionResult) (s : AppState)
    : AppState * list Effect :=
  let '(s1, effects) := handleDetectionResult result s in
  (setIsProcessing false s1, effects).

(** [handleCapture] when the request failed: [handleApiError(message)],
    then the [finally] block. *)
Definition handleCapture_rejected (message : string) (s : AppState) : AppState :=
  setIsProcessing false (handleApiError message s).

End AppStreaming.

(** Whether a handler's effects contain a request to the backend. *)
Definition requests_backend (effects : list Effect) : bool :=
  existsb (λ e, match e with Fetch _ _ => true | SetTimeout _ _ => false end) effects.

End Frontend.

(** ** Concrete inputs used further down *)

Module Samples.

Definition paths : FilePaths :=
  {| original := "salidas/results/captura.jpg"; roi := None; mask := None |}.

Definition result_of (classification : string) (confidence : Q)
    (is_fruit spoiled : bool) : DetectionResult :=
  {| timestamp := "20241220_143022";
     classification := classification;
     confidence := confidence;
     is_fruit := is_fruit;
     fruit_type := if is_fruit then "Manzana" else "No_Fruta";
     spoiled := spoiled;
     image_shape := [720; 1280; 3];
     file_paths := paths |}.

Definition buena : DetectionResult := result_of "manzana_buena" (85 # 100)%Q true false.
Definition mala : DetectionResult := result_of "manzana_mala" (72 # 100)%Q true true.
Definition no_fruta : DetectionResult := result_of "no_fruta" 1%Q false false.
Definition desconocido : DetectionResult := result_of "desconocido" (45 # 100)%Q false false.

(** A camera that always opens, and one that never does. *)
Definition camera_present : nat → nat → bool := λ _ _, true.
Definition camera_absent : nat → nat → bool := λ _ _, false.

(** A service that has not been started yet. *)
Definition idle (ds : option StatsResponse) : CameraService.State :=
  {| CameraService.is_running := false;
     CameraService.is_live := false;
     CameraService.cap := None;
     CameraService.last_live_classification := None;
     CameraService.detection_service := ds;
     CameraService.handles_opened := 0 |}.

(** The same service once camera 0 has been opened, and in live mode. *)
Definition running (ds : option StatsResponse) : CameraService.State :=
  (CameraService.start_camera camera_present 0 (idle ds)).2.

Definition live (ds : option StatsResponse) : CameraService.State :=
  (CameraService.toggle_live camera_present (running ds)).2.

Definition empty_store : StatsResponse := DetectionService.fresh "2024-12-20T14:30:00".

(** An update that never raises, and one that always does and leaves
    the statistics as they were. *)
Definition never_raises : DetectionResult → StatsResponse → option StatsResponse :=
  λ _ _, None.
Definition always_raises : DetectionResult → StatsResponse → option StatsResponse :=
  λ _ st, Some st.


(** The same service as [stop_camera]'s steps leave it. *)
Definition halted (ds : option StatsResponse) : CameraService.State :=
  CameraService.with_cap None
    (CameraService.with_live false (CameraService.with_running false (live ds))).

(** Stand-ins on rationals for the interface's double arithmetic, for
    inputs at which the doubles are exact: the quotient as a rational,
    and rounding half up.  (They are not the doubles everywhere: for
    57 / 200 the double product is just below 28.5 and rounds to 28,
    the rational one rounds to 29.) *)
Definition exact_divide (a b : nat) : Q := (Z.of_nat a # Pos.of_nat b)%Q.
Definition exact_round_percent (x : Q) : Z := Qfloor (x * 100 + (1 # 2))%Q.

(** The interface right after loading, live mode off, three good and
    one bad apple classified by hand. *)
Definition manual_app : Frontend.AppState :=
  {| Frontend.goodCount := 3; Frontend.badCount := 1;
     Frontend.isLive := false; Frontend.isProcessing := false;
     Frontend.lastClassification := Some "BUENA";
     Frontend.autoClassification := None;
     Frontend.confidence_level := 0;
     Frontend.isAwaitingConfirmation := false;
     Frontend.detectionResult := None;
     Frontend.stats := Some empty_store;
     Frontend.error := None;
     Frontend.backendConnected := Some true;
     Frontend.isStreaming := false |}.

End Samples.

(** ** The API service ([services/api.ts]) *)

Module ApiService.

(** How a promise settles: with a value, or rejected with an [Error]
    whose message is given. *)
Inductive Outcome (A : Type) :=
  | Resolved (value : A)
  | Rejected (message : string).
Arguments Resolved {A} value.
Arguments Rejected {A} message.

(** What the service reads of a [fetch] response: [ok], [statusText]
    and what [response.json()] settles to. *)
Record Response (A : Type) := {
  ok : bool;
  statusText : string;
  json : Outcome A
}.
Arguments ok {A} r.
Arguments statusText {A} r.
Arguments json {A} r.

(** The body of the methods that throw a fixed message followed by the
    status text ([checkHealth], [getStats], [getDetectionHistory],
    [resetStats], [toggleLiveMode], [startCamera], [stopCamera],
    [getCameraStatus]); a [fetch] that rejects rejects the method. *)
Definition expect_ok {A : Type} (error_prefix : string)
    (fetched : Outcome (Response A)) : Outcome A :=
  match fetched with
  | Resolved response =>
      if negb (ok response)
      then Rejected (error_prefix +:+ statusText response)
      else json response
  | Rejected message => Rejected message
  end.

Definition getStats (fetched : Outcome (Response StatsResponse)) : Outcome StatsResponse :=
  expect_ok "Error getting stats: " fetched.

Definition resetStats (fetched : Outcome (Response string)) : Outcome string :=
  expect_ok "Error resetting stats: " fetched.

(** A JSON value as [response.json()] gives it, as far as the code
    looks at it.  A number is given by whether it is zero (the falsy
    numbers of JSON are [0] and [-0]) and by its [String(n)]. *)
#[warnings="-register-all"] Inductive JSON :=
  | JNull
  | JBool (b : bool)
  | JNumber (is_zero : bool) (text : string)
  | JString (s : string)
  | JArray (items : list JSON)
  | JObject (fields : list (string * JSON)).

(** A value used as a condition: [null], [false], zero and the empty
    string are falsy, every array and object is truthy. *)
Definition truthy (v : JSON) : bool :=
  match v with
  | JNull => false
  | JBool b => b
  | JNumber is_zero _ => negb is_zero
  | JString s => negb (bool_decide (s = ""))
  | JArray _ | JObject _ => true
  end.

(** [String(v)], which [new Error(v)] applies to its argument: an
    array joins the strings of its elements with commas, a [null]
    element giving the empty string; an object gives
    "[object Object]". *)
Fixpoint to_string (v : JSON) : string :=
  match v with
  | JNull => "null"
  | JBool true => "true"
  | JBool false => "false"
  | JNumber _ text => text
  | JString s => s
  | JArray items =>
      (fix join (l : list JSON) : string :=
         match l with
         | [] => ""
         | i :: rest =>
             let piece := match i with
                          | JNull => ""
                          | _ => to_string i
                          end in
             match rest with
             | [] => piece
             | _ :: _ => piece +:+ "," +:+ join rest
             end
         end) items
  | JObject _ => "[object Object]"
  end.

(** What reading a property comes to. *)
Inductive Read :=
  | Throws
  | Undefined
  | Value (v : JSON).

(** [errorData.detail]: reading a property of [null] throws a
    [TypeError]; booleans, numbers, strings and arrays have no property
    of that name; an object has it when the name is among its keys, the
    last one counting when it is repeated (as [JSON.parse] builds the
    object). *)
Definition read_detail (errorData : JSON) : Read :=
  match errorData with
  | JNull => Throws
  | JObject fields =>
      match foldl (λ found field, if decide (field.1 = "detail") then Some field.2 else found)
              None fields with
      | Some v => Value v
      | None => Undefined
      end
  | JBool _ | JNumber _ _ | JString _ | JArray _ => Undefined
  end.

(** A response that is not ok, as [detectFruit] and [captureAndDetect]
    read it: its status text and how [response.json()] went.
    [null_read_message] is the message of the [TypeError] raised when
    [detail] is read from [null], which is the engine's to word. *)
Record Failure := {
  failure_statusText : string;
  errorData : Outcome JSON;
  null_read_message : string
}.

(** The message of what
    [const errorData = await response.json().catch(() => ({}));
     throw new Error(errorData.detail || fallback)] throws: a body that
    cannot be read counts as [{}]. *)
Definition detail_or (failure : Failure) (fallback : string) : string :=
  match errorData failure with
  | Resolved body =>
      match read_detail body with
      | Throws => null_read_message failure
      | Value v => if truthy v then to_string v else fallback
      | Undefined => fallback
      end
  | Rejected _ => fallback
  end.

(** [captureAndDetect]: the response is either ok, with its JSON, or a
    failure. *)
Definition captureAndDetect (fetched : Outcome (Outcome DetectionResult + Failure))
    : Outcome DetectionResult :=
  match fetched with
  | Resolved (inl body) => body
  | Resolved (inr failure) =>
      Rejected (detail_or failure ("Error en captura: " +:+ failure_statusText failure))
  | Rejected message => Rejected message
  end.


(** The backslash, character 92. *)
Definition backslash : Ascii.ascii := Ascii.ascii_of_nat 92.
Definition slash : Ascii.ascii := Ascii.ascii_of_nat 47.

(** [s.replace(/\\/g, '/')]: every backslash becomes a slash. *)
Fixpoint replace_backslashes (s : string) : string :=
  match s with
  | EmptyString => EmptyString
  | String c rest =>
      String (if Ascii.eqb c backslash then slash else c) (replace_backslashes rest)
  end.

Fixpoint drop_chars (n : nat) (s : string) : string :=
  match n, s with
  | 0, _ => s
  | S n', String _ rest => drop_chars n' rest
  | S _, EmptyString => EmptyString
  end.

(** [hay.replace(needle, replacement)] with a string pattern: only the
    first occurrence is replaced. *)
Fixpoint replace_first (needle replacement hay : string) : string :=
  if String.prefix needle hay
  then replacement +:+ drop_chars (String.length needle) hay
  else match hay with
       | EmptyString => EmptyString
       | String c rest => String c (replace_first needle replacement rest)
       end.

(** Whether [needle] occurs in [hay]. *)
Fixpoint occurs (needle hay : string) : bool :=
  String.prefix needle hay
  || match hay with
     | EmptyString => false
     | String _ rest => occurs needle rest
     end.

(** [getImageUrl]. *)
Definition getImageUrl (baseUrl filePath : string) : string :=
  let relativePath := replace_first "salidas/" "" (replace_backslashes filePath) in
  baseUrl +:+ "/static/" +:+ relativePath.

End ApiService.

(** ** The rest of [App.tsx] *)

Module AppShell.

Import Frontend.

(** [App]'s state: the cells of [AppState] and the four that only
    navigation uses. *)
Record Shell := {
  app : AppState;
  activeTab : string;
  showSettings : bool;
  showStats : bool;
  selectedFruit : string
}.

(** The argument of [handleClassify], ['good' | 'bad']. *)
Inductive Quality := good | bad.

(** [handleClassify]. *)
Definition handleClassify (type : Quality) (s : AppState) : AppState :=
  {| goodCount := match type with good => S (goodCount s) | bad => goodCount s end;
     badCount := match type with good => badCount s | bad => S (badCount s) end;
     isLive := isLive s; isProcessing := isProcessing s;
     lastClassification := Some (match type with good => "BUENA" | bad => "MALA" end);
     autoClassification := None;
     confidence_level := confidence_level s;
     isAwaitingConfirmation := false;
     detectionResult := detectionResult s; stats := stats s; error := error s;
     backendConnected := backendConnected s; isStreaming := isStreaming s |}.

(** [autoClassification === 'BUENA']. *)
Definition is_BUENA (auto : option string) : bool :=
  bool_decide (auto = Some "BUENA").

Definition setAutoClassification (auto : option string) (s : AppState) : AppState :=
  {| goodCount := goodCount s; badCount := badCount s;
     isLive := isLive s; isProcessing := isProcessing s;
     lastClassification := lastClassification s;
     autoClassification := auto;
     confidence_level := confidence_level s;
     isAwaitingConfirmation := isAwaitingConfirmation s;
     detectionResult := detectionResult s; stats := stats s; error := error s;
     backendConnected := backendConnected s; isStreaming := isStreaming s |}.

(** [handleCorrectClassification]: the opposite of the automatic
    classification is counted, and the opposite label is then shown;
    both read the [autoClassification] of the render the handler was
    created in. *)
Definition handleCorrectClassification (s : AppState) : AppState :=
  let auto := autoClassification s in
  let correctedType := if is_BUENA auto then bad else good in
  setAutoClassification (Some (if is_BUENA auto then "MALA" else "BUENA"))
    (handleClassify correctedType s).

(** [handleConfirmClassification]. *)
Definition handleConfirmClassification (s : AppState) : AppState :=
  handleClassify (if is_BUENA (autoClassification s) then good else bad) s.

Definition setIsLive (live : bool) (s : AppState) : AppState :=
  {| goodCount := goodCount s; badCount := badCount s;
     isLive := live; isProcessing := isProcessing s;
     lastClassification := lastClassification s;
     autoClassification := autoClassification s;
     confidence_level := confidence_level s;
     isAwaitingConfirmation := isAwaitingConfirmation s;
     detectionResult := detectionResult s; stats := stats s; error := error s;
     backendConnected := backendConnected s; isStreaming := isStreaming s |}.

(** [handleToggleLive] of [src/App.tsx]: the new state and, when live
    mode was off, the delay after which [simulateAutoClassification] is
    scheduled. *)
Definition handleToggleLive (s : AppState) : AppState * option nat :=
  (setIsLive (negb (isLive s)) s,
   if negb (isLive s) then Some 3000 else None).

(** [handleStartMonitoring] of [src/App.tsx], with the delay of the
    scheduled [simulateAutoClassification]. *)
Definition handleStartMonitoring (sh : Shell) : Shell * nat :=
  ({| app := setIsLive true (app sh);
      activeTab := "camera";
      showSettings := false;
      showStats := false;
      selectedFruit := selectedFruit sh |}, 3000).

Definition clear_confirmation (s : AppState) : AppState :=
  {| goodCount := goodCount s; badCount := badCount s;
     isLive := isLive s; isProcessing := isProcessing s;
     lastClassification := lastClassification s;
     autoClassification := None;
     confidence_level := confidence_level s;
     isAwaitingConfirmation := false;
     detectionResult := detectionResult s; stats := stats s; error := error s;
     backendConnected := backendConnected s; isStreaming := isStreaming s |}.

(** [handleExit] of [src/App.tsx]. *)
Definition handleExit (sh : Shell) : Shell :=
  {| app := clear_confirmation (setIsLive false (app sh));
     activeTab := "home";
     showSettings := showSettings sh;
     showStats := false;
     selectedFruit := selectedFruit sh |}.

(** [handleShowStats]. *)
Definition handleShowStats (sh : Shell) : Shell :=
  {| app := app sh; activeTab := "stats"; showSettings := showSettings sh;
     showStats := true; selectedFruit := selectedFruit sh |}.

(** [handleSelectFruit]. *)
Definition handleSelectFruit (fruitId : string) (sh : Shell) : Shell :=
  {| app := app sh; activeTab := activeTab sh; showSettings := showSettings sh;
     showStats := showStats sh; selectedFruit := fruitId |}.

(** [handleTabChange]. *)
Definition handleTabChange (tab : string) (sh : Shell) : Shell :=
  let settings := bool_decide (tab = "settings") in
  {| app := if bool_decide (tab = "camera")
            then clear_confirmation (app sh) else app sh;
     activeTab := tab;
     showSettings := settings;
     showStats := if settings then showStats sh else false;
     selectedFruit := selectedFruit sh |}.

(** The [onClose] handed to [SettingsPanel]. *)
Definition closeSettings (sh : Shell) : Shell :=
  {| app := app sh; activeTab := "home"; showSettings := false;
     showStats := showStats sh; selectedFruit := selectedFruit sh |}.

(** What [renderMainContent] returns. *)
Inductive Content :=
  | SettingsPlaceholder
  | Statistics
  | Home
  | Upload
  | CameraView.

(** [renderMainContent]. *)
Definition renderMainContent (sh : Shell) : Content :=
  if bool_decide (activeTab sh = "settings") then SettingsPlaceholder
  else if bool_decide (activeTab sh = "stats") || showStats sh then Statistics
  else if bool_decide (activeTab sh = "home") then Home
  else if bool_decide (activeTab sh = "upload") then Upload
  else CameraView.

(** [loadStats]: the state is changed only when [getStats] resolves. *)
Definition loadStats (fetched : ApiService.Outcome (ApiService.Response StatsResponse))
    (s : AppState) : AppState * list Effect :=
  (match ApiService.getStats fetched with
   | ApiService.Resolved statsData => loadStats_resolved statsData s
   | ApiService.Rejected _ => s
   end, [Fetch GET STATS]).

(** [handleStatsReset] of the [App.tsx] in
    [INTEGRACION_VISUAL_STREAMING.md]: the statistics are reloaded only
    when the reset resolved; the requests sent are listed in order. *)
Definition handleStatsReset
    (reset_fetched : ApiService.Outcome (ApiService.Response string))
    (stats_fetched : ApiService.Outcome (ApiService.Response StatsResponse))
    (s : AppState) : AppState * list Effect :=
  match ApiService.resetStats reset_fetched with
  | ApiService.Resolved _ =>
      let '(s1, requests) := loadStats stats_fetched s in
      (s1, (Fetch DELETE STATS :: requests)%list)
  | ApiService.Rejected _ => (s, [Fetch DELETE STATS])
  end.

End AppShell.

(** ** [components/CameraPanel.tsx] *)

Module CameraPanel.

(** The props the status line and the image read. *)
Record Props := {
  isProcessing : bool;
  lastClassification : option string;
  detectionResult : option DetectionResult;
  backendConnected : bool;
  isStreaming : bool
}.

(** A string used as a condition: [null] and the empty string are
    falsy. *)
Definition present (s : option string) : bool :=
  match s with
  | Some v => negb (bool_decide (v = ""))
  | None => false
  end.

Definition stream_url : string := "http://localhost:8000/video_stream".

Definition default_image : string :=
  "https://images.unsplash.com/photo-1623815242959-fb20354f9b8d?crop=entropy&cs=tinysrgb&fit=max&fm=jpg&ixid=M3w3Nzg4Nzd8MHwxfHNlYXJjaHwxfHxmcmVzaCUyMHJlZCUyMGFwcGxlJTIwZnJ1aXR8ZW58MXx8fHwxNzU4NTYxMTIyfDA&ixlib=rb-4.1.0&q=80&w=1080&utm_source=figma&utm_medium=referral".

Section StatusLine.

(** [(x * 100).toFixed(1)] on doubles. *)
Variable percent_one_decimal : Q → string.

(** [getStatusText]. *)
Definition getStatusText (p : Props) : string :=
  if isProcessing p then "Reconociendo..."
  else match detectionResult p with
       | Some r =>
           if is_fruit r
           then "Clasificada: " +:+ classification r +:+ " ("
                +:+ percent_one_decimal (confidence r) +:+ "%)"
           else "No se detectó fruta"
       | None =>
           match lastClassification p with
           | Some l => if present (Some l) then "Clasificada: " +:+ l else "En espera"
           | None => "En espera"
           end
       end.

End StatusLine.

(** [getStatusColor]. *)
Definition getStatusColor (p : Props) : string :=
  if isProcessing p then "text-yellow-600"
  else match detectionResult p with
       | Some r =>
           if negb (is_fruit r) then "text-gray-600"
           else if spoiled r then "text-red-600" else "text-emerald-600"
       | None =>
           if bool_decide (lastClassification p = Some "BUENA") then "text-emerald-600"
           else if bool_decide (lastClassification p = Some "MALA") then "text-red-600"
           else "text-gray-600"
       end.

(** [getImageSource]; [latestImageUrl] is the component's own state. *)
Definition getImageSource (latestImageUrl : option string) (p : Props) : string :=
  if isStreaming p && backendConnected p then stream_url
  else match latestImageUrl with
       | Some url =>
           if present (Some url) && backendConnected p then url else default_image
       | None => default_image
       end.

(** [handleResetStats]: nothing without a backend; otherwise the reset
    is requested and, when it resolved, the parent's [onStatsReset] is
    called, if one was given.  The result is [isResetting] at the end,
    the parent's state and the requests sent, in order. *)
Definition handleResetStats {Parent : Type} (isResetting : bool) (p : Props)
    (reset_fetched : ApiService.Outcome (ApiService.Response string))
    (onStatsReset : option (Parent → Parent * list Frontend.Effect))
    (parent : Parent) : bool * Parent * list Frontend.Effect :=
  if negb (backendConnected p) then (isResetting, parent, [])
  else
    let request := Frontend.Fetch Frontend.DELETE Frontend.STATS in
    match ApiService.resetStats reset_fetched with
    | ApiService.Resolved _ =>
        match onStatsReset with
        | Some callback =>
            let '(parent', requests) := callback parent in
            (false, parent', (request :: requests)%list)
        | None => (false, parent, [request])
        end
    | ApiService.Rejected _ => (false, parent, [request])
    end.

End CameraPanel.

(** ** [components/ImageUpload.tsx] and [config/api.ts] *)

Module ImageUpload.

(** [FILE_CONFIG] of [config/api.ts]. *)
Definition MAX_SIZE : N := (10 * 1024 * 1024)%N.
Definition ALLOWED_TYPES : list string :=
  ["image/jpeg"; "image/jpg"; "image/png"; "image/gif"].

(** What is read of a [File]. *)
Record File := {
  name : string;
  type : string;
  size : N
}.

(** The component's state. *)
Record State := {
  isUploading : bool;
  selectedFile : option File;
  previewUrl : option nat;
  dragActive : bool
}.

(** The browser's object URLs: the next one [URL.createObjectURL] will
    hand out, and those created and not yet revoked. *)
Record Browser := {
  next_url : nat;
  live_urls : gset nat
}.

(** [handleFileSelect]: the new state, the browser, and the messages
    given to [onError]. *)
Definition handleFileSelect (file : File) (st : State) (br : Browser)
    : State * Browser * list string :=
  if negb (String.prefix "image/" (type file)) then
    (st, br, ["Por favor selecciona un archivo de imagen válido"])
  else if (10 * 1024 * 1024 <? size file)%N then
    (st, br, ["El archivo es demasiado grande. Máximo 10MB"])
  else
    ({| isUploading := isUploading st;
        selectedFile := Some file;
        previewUrl := Some (next_url br);
        dragActive := dragActive st |},
     {| next_url := S (next_url br);
        live_urls := {[next_url br]} ∪ live_urls br |},
     []).

(** [handleFileInputChange] and the file part of [handleDrop]:
    [files?.[0]] may be missing. *)
Definition handleFileInputChange (file : option File) (st : State) (br : Browser)
    : State * Browser * list string :=
  match file with
  | Some f => handleFileSelect f st br
  | None => (st, br, [])
  end.

(** [clearFile]. *)
Definition clearFile (st : State) (br : Browser) : State * Browser :=
  ({| isUploading := isUploading st;
      selectedFile := None;
      previewUrl := None;
      dragActive := dragActive st |},
   match previewUrl st with
   | Some url => {| next_url := next_url br; live_urls := live_urls br ∖ {[url]} |}
   | None => br
   end).



(** A file [handleFileSelect] takes. *)
Definition acceptable (file : File) : bool :=
  String.prefix "image/" (type file) && (size file <=? MAX_SIZE)%N.

(** Object URLs are handed out in increasing order: every live one is
    older than the next. *)
Definition well_formed (br : Browser) : Prop :=
  ∀ url, url ∈ live_urls br → url < next_url br.

End ImageUpload.

(** ** [components/DetectionResults.tsx] *)

Module DetectionResults.

(** [s.substring(a, b)] for [a <= b]; both ends are clamped to the
    length of [s]. *)
Definition substring (a b : nat) (s : string) : string :=
  String.substring a (b - a) s.

(** [formatTimestamp]. *)
Definition formatTimestamp (timestamp : string) : string :=
  let year := substring 0 4 timestamp in
  let month := substring 4 6 timestamp in
  let day := substring 6 8 timestamp in
  let hour := substring 9 11 timestamp in
  let minute := substring 11 13 timestamp in
  let second := substring 13 15 timestamp in
  day +:+ "/" +:+ month +:+ "/" +:+ year +:+ " "
  +:+ hour +:+ ":" +:+ minute +:+ ":" +:+ second.

(** [getClassificationText]. *)
Definition getClassificationText (result : DetectionResult) : string :=
  if negb (is_fruit result) then "No se detectó fruta"
  else if spoiled result then "Manzana en mal estado" else "Manzana en buen estado".

(** [getClassificationColor]. *)
Definition getClassificationColor (result : DetectionResult) : string :=
  if negb (is_fruit result) then "bg-gray-100 text-gray-800"
  else if spoiled result then "bg-red-100 text-red-800" else "bg-green-100 text-green-800".

(** [path.split('/')]: the pieces between slashes, at least one. *)
Fixpoint split_slash (piece : string) (path : string) : list string :=
  match path with
  | EmptyString => [piece]
  | String c rest =>
      if Ascii.eqb c ApiService.slash
      then piece :: split_slash EmptyString rest
      else split_slash (piece +:+ String c EmptyString) rest
  end.

(** [path.split('/').pop()], the file name shown for a generated
    file; [None] would be [undefined]. *)
Definition file_name (path : string) : option string :=
  last (split_slash EmptyString path).

End DetectionResults.

(** ** [components/HomePanel.tsx] *)

Module HomePanel.

Inductive Status := available | development | coming_soon.

Record Fruit := {
  id : string;
  fruit_name : string;
  status : Status;
  isDefault : bool
}.

(** The cards of the panel. *)
Definition fruits : list Fruit :=
  [ {| id := "apple"; fruit_name := "Manzana"; status := available; isDefault := true |};
    {| id := "orange"; fruit_name := "Naranja"; status := development; isDefault := false |};
    {| id := "banana"; fruit_name := "Plátano"; status := coming_soon; isDefault := false |};
    {| id := "strawberry"; fruit_name := "Fresa"; status := coming_soon; isDefault := false |} ].

Definition isDisabled (fruit : Fruit) : bool :=
  match status fruit with
  | available => false
  | development | coming_soon => true
  end.

(** The two places a card can be clicked. *)
Inductive Click :=
  | card (fruit : Fruit)
  | select_button (fruit : Fruit).

(** What a click does to [selectedFruit], with [onSelectFruit] being
    [App]'s [handleSelectFruit]: the card calls it unless the fruit is
    disabled; the button exists only on an available fruit, a click on
    the disabled button of the others does nothing. *)
Definition click (c : Click) (sh : AppShell.Shell) : AppShell.Shell :=
  match c with
  | card fruit =>
      if negb (isDisabled fruit) then AppShell.handleSelectFruit (id fruit) sh else sh
  | select_button fruit =>
      match status fruit with
      | available => AppShell.handleSelectFruit (id fruit) sh
      | development | coming_soon => sh
      end
  end.

(** The click concerns one of the cards shown. *)
Definition shown (c : Click) : Prop :=
  match c with
  | card fruit | select_button fruit => fruit ∈ fruits
  end.

End HomePanel.

(** ** The diagnostic panel ([DiagnosticPanel], [src/unnamed/part_002]) *)

Module DiagnosticPanel.

Inductive Status := success | error | pending.

(** The message of a result, by its template. *)
Inductive Message :=
  | Probando
  | Ok (status : nat)
  | HttpError (status : nat) (statusText : string)
  | Thrown (message : string).

Record DiagnosticResult := {
  endpoint : string;
  status : Status;
  message : Message;
  response : option string
}.

(** An entry of [endpoints]. *)
Record Probe := {
  probe_name : string;
  url : string;
  method : string
}.

Definition endpoints : list Probe :=
  [ {| probe_name := "Health Check"; url := "/health"; method := "GET" |};
    {| probe_name := "Test Endpoint"; url := "/test"; method := "GET" |};
    {| probe_name := "Stats"; url := "/stats"; method := "GET" |};
    {| probe_name := "History"; url := "/history"; method := "GET" |};
    {| probe_name := "Toggle Live"; url := "/toggle_live"; method := "POST" |};
    {| probe_name := "Capture"; url := "/capture"; method := "POST" |} ].

(** How one [fetch] went: it rejected (with an [Error]'s message, or
    with something else), or it answered. *)
Inductive Fetched :=
  | NetworkError (message : option string)
  | Answer (ok : bool) (status : nat) (statusText : string)
      (json : ApiService.Outcome string).

(** The result object as first built, and as left by the [try] block. *)
Definition started (p : Probe) : DiagnosticResult :=
  {| endpoint := method p +:+ " " +:+ url p;
     status := pending; message := Probando; response := None |}.

Definition settled (p : Probe) (f : Fetched) : DiagnosticResult :=
  let label := method p +:+ " " +:+ url p in
  match f with
  | Answer true code _ (ApiService.Resolved data) =>
      {| endpoint := label; status := success; message := Ok code;
         response := Some data |}
  | Answer true _ _ (ApiService.Rejected thrown) =>
      {| endpoint := label; status := error; message := Thrown thrown;
         response := None |}
  | Answer false code text _ =>
      {| endpoint := label; status := error; message := HttpError code text;
         response := None |}
  | NetworkError thrown =>
      {| endpoint := label; status := error;
         message := Thrown (default "Desconocido" thrown); response := None |}
  end.

(** The panel's state. *)
Record State := {
  results : list DiagnosticResult;
  isRunning : bool
}.

(** The loop of [runDiagnostics] over the probes left: [newResults] is
    the array built so far; every [setResults] is recorded with the
    array it was given, as it stood then. *)
Fixpoint probe_all (backend : Probe → Fetched) (todo : list Probe)
    (newResults : list DiagnosticResult) : list DiagnosticResult * list State :=
  match todo with
  | [] => (newResults, [])
  | p :: rest =>
      let shown_pending :=
        {| results := (newResults ++ [started p])%list; isRunning := true |} in
      let newResults' := (newResults ++ [settled p (backend p)])%list in
      let shown_settled := {| results := newResults'; isRunning := true |} in
      let '(final, renders) := probe_all backend rest newResults' in
      (final, (shown_pending :: shown_settled :: renders)%list)
  end.

(** [runDiagnostics]: the states rendered on the way, from
    [setIsRunning(true); setResults([])] to [setIsRunning(false)], and
    the last of them. *)
Definition runDiagnostics (backend : Probe → Fetched) : list State * State :=
  let '(final, renders) := probe_all backend endpoints [] in
  (({| results := []; isRunning := true |} :: renders)%list,
   {| results := final; isRunning := false |}).

(** Whether a result is still waiting for its answer, and how many of
    a list are. *)
Definition is_pending (r : DiagnosticResult) : bool :=
  match status r with
  | pending => true
  | success | error => false
  end.

Definition count_pending (l : list DiagnosticResult) : nat :=
  length (filter (λ r, is_pending r = true) l).

(** The label shown for a probe. *)
Definition label (p : Probe) : string := method p +:+ " " +:+ url p.

End DiagnosticPanel.

(** ** The capture of the streaming [App.tsx], request and answer *)

Module CaptureFlow.

Import Frontend.

(** [handleCapture] of the [App.tsx] in
    [INTEGRACION_VISUAL_STREAMING.md], run to its end: [fetched] is how
    [POST /capture] went, should it be sent. *)
Definition handleCapture
    (fetched : ApiService.Outcome (ApiService.Outcome DetectionResult + ApiService.Failure))
    (s : AppState) : AppState * list Effect :=
  if isLive s && bool_decide (backendConnected s = Some true) then
    let s1 := setIsProcessing true s in
    match ApiService.captureAndDetect fetched with
    | ApiService.Resolved result =>
        let '(s2, effects) := AppStreaming.handleCapture_resolved result s1 in
        (s2, (Fetch POST CAPTURE :: effects)%list)
    | ApiService.Rejected message =>
        (AppStreaming.handleCapture_rejected message s1, [Fetch POST CAPTURE])
    end
  else AppStreaming.handleCapture s.

(** The same capture followed to the end of the [loadStats()] that
    [handleDetectionResult] starts and does not await: [stats_fetched]
    is how that [GET /stats] went.  When it resolves, [loadStats] sets
    both counters to the backend's figures, over the increment made
    before. *)
Definition handleCapture_settled
    (fetched : ApiService.Outcome (ApiService.Outcome DetectionResult + ApiService.Failure))
    (stats_fetched : ApiService.Outcome (ApiService.Response StatsResponse))
    (s : AppState) : AppState * list Effect :=
  let '(s1, effects) := handleCapture fetched s in
  if existsb (λ e, match e with Fetch GET STATS => true | _ => false end) effects
  then ((AppShell.loadStats stats_fetched s1).1, effects)
  else (s1, effects).

End CaptureFlow.

(** ** [ClassificationPanel] (after [CameraPanel] in
    [components/CameraPanel.tsx]) *)

Module ClassificationPanel.

Import Frontend.

(** The four buttons of the panel. *)
Inductive Button := BUENA | MALA | Corregir | Confirmar.

(** Whether a button can be pressed: the manual buttons are disabled
    while a confirmation is awaited; the other two are rendered only
    under [autoClassification && ...] and
    [isAwaitingConfirmation && ...]. *)
Definition enabled (b : Button) (s : AppState) : bool :=
  match b with
  | BUENA | MALA => negb (isAwaitingConfirmation s)
  | Corregir | Confirmar =>
      CameraPanel.present (autoClassification s) && isAwaitingConfirmation s
  end.

(** A press, with the handlers [App] passes to the panel. *)
Definition press (b : Button) (s : AppState) : AppState :=
  if enabled b s then
    match b with
    | BUENA => AppShell.handleClassify AppShell.good s
    | MALA => AppShell.handleClassify AppShell.bad s
    | Corregir => AppShell.handleCorrectClassification s
    | Confirmar => AppShell.handleConfirmClassification s
    end
  else s.

End ClassificationPanel.

(** ** The first [CameraPanel] (after [BottomActions] in
    [components/BottomActions.tsx]) *)

Module FirstCameraPanel.

(** [getStatusText]. *)
Definition getStatusText (isProcessing : bool) (lastClassification : option string)
    : string :=
  if isProcessing then "Reconociendo..."
  else if CameraPanel.present lastClassification
       then "Clasificada: " +:+ default "" lastClassification
       else "En espera".

(** [getStatusColor]. *)
Definition getStatusColor (isProcessing : bool) (lastClassification : option string)
    : string :=
  if isProcessing then "text-yellow-600"
  else if bool_decide (lastClassification = Some "BUENA") then "text-emerald-600"
  else if bool_decide (lastClassification = Some "MALA") then "text-red-600"
  else "text-gray-600".

End FirstCameraPanel.

(** * Further sample inputs *)

Module InterfaceSamples.

Definition png : ImageUpload.File :=
  {| ImageUpload.name := "manzana.png"; ImageUpload.type := "image/png";
     ImageUpload.size := 2048 |}.

(** An upload form already showing the preview with object URL 0. *)
Definition previewing : ImageUpload.State :=
  {| ImageUpload.isUploading := false; ImageUpload.selectedFile := None;
     ImageUpload.previewUrl := Some 0; ImageUpload.dragActive := false |}.

Definition one_url : ImageUpload.Browser :=
  {| ImageUpload.next_url := 1; ImageUpload.live_urls := {[0]} |}.

(** A camera panel holding a result for a spoiled apple. *)
Definition panel_with_mala : CameraPanel.Props :=
  {| CameraPanel.isProcessing := false;
     CameraPanel.lastClassification := Some "BUENA";
     CameraPanel.detectionResult := Some Samples.mala;
     CameraPanel.backendConnected := true;
     CameraPanel.isStreaming := false |}.

(** Two of the home panel's cards, and the application on its home
    tab with the orange selected. *)
Definition orange : HomePanel.Fruit :=
  {| HomePanel.id := "orange"; HomePanel.fruit_name := "Naranja";
     HomePanel.status := HomePanel.development; HomePanel.isDefault := false |}.

Definition apple : HomePanel.Fruit :=
  {| HomePanel.id := "apple"; HomePanel.fruit_name := "Manzana";
     HomePanel.status := HomePanel.available; HomePanel.isDefault := true |}.

Definition home : AppShell.Shell :=
  {| AppShell.app := Samples.manual_app; AppShell.activeTab := "home";
     AppShell.showSettings := false; AppShell.showStats := false;
     AppShell.selectedFruit := "banana" |}.

(** A camera service that believes it is running while its handle is
    not opened. *)
Definition stalled : CameraService.State :=
  {| CameraService.is_running := true;
     CameraService.is_live := false;
     CameraService.cap :=
       Some {| CameraService.camera_index := 0; CameraService.isOpened := false |};
     CameraService.last_live_classification := None;
     CameraService.detection_service := None;
     CameraService.handles_opened := 1 |}.

(** A camera panel with nothing from the backend yet. *)
Definition panel_waiting : CameraPanel.Props :=
  {| CameraPanel.isProcessing := false;
     CameraPanel.lastClassification := Some "BUENA";
     CameraPanel.detectionResult := None;
     CameraPanel.backendConnected := false;
     CameraPanel.isStreaming := false |}.

(** The backend's statistics after one good apple, and the answer of
    [GET /stats] that carries them. *)
Definition stats_after_buena : StatsResponse :=
  DetectionService._update_stats 100 (timestamp Samples.buena) Samples.buena
    Samples.empty_store.

Definition stats_answer : ApiService.Outcome (ApiService.Response StatsResponse) :=
  ApiService.Resolved
    {| ApiService.ok := true; ApiService.statusText := "OK";
       ApiService.json := ApiService.Resolved stats_after_buena |}.

(** Answers that are not ok: with a [detail] in words, with an empty
    array as [detail], and with the body [null]. *)
Definition failure_with (body : ApiService.JSON) : ApiService.Failure :=
  {| ApiService.failure_statusText := "Internal Server Error";
     ApiService.errorData := ApiService.Resolved body;
     ApiService.null_read_message :=
       "Cannot read properties of null (reading 'detail')" |}.


Definition failure_empty_list : ApiService.Failure :=
  failure_with (ApiService.JObject [("detail", ApiService.JArray [])]).

Definition failure_null : ApiService.Failure := failure_with ApiService.JNull.

End InterfaceSamples.

(** * Properties *)

(** ** Statistics store *)

Section StoreProperties.

Import DetectionService.

Variable max_history : nat.

Lemma sum_values_empty : sum_values ∅ = 0.
Proof. unfold sum_values. apply map_fold_empty. Qed.

Lemma sum_values_insert_fresh (m : gmap string nat) (t : string) (v : nat) :
  m !! t = None → sum_values (<[t := v]> m) = v + sum_values m.
Proof.
  intros Hfresh. unfold sum_values.
  rewrite map_fold_insert_L; [done | | done].
  intros; lia.
Qed.

Lemma sum_values_lookup (m : gmap string nat) (t : string) (v : nat) :
  m !! t = Some v → sum_values m = v + sum_values (delete t m).
Proof.
  intros Hin. unfold sum_values.
  rewrite (map_fold_delete_L _ _ t v m); [done | | done].
  intros; lia.
Qed.

(** Counting one more fruit of a type adds one to the sum over types,
    whether the type was already known or not. *)
Lemma sum_values_bump (m : gmap string nat) (t : string) :
  sum_values (bump t m) = S (sum_values m).
Proof.
  unfold bump. destruct (m !! t) as [v|] eqn:Hlook; simpl.
  - rewrite <- insert_delete_eq.
    rewrite sum_values_insert_fresh by apply lookup_delete_eq.
    rewrite (sum_values_lookup m t v Hlook). lia.
  - rewrite sum_values_insert_fresh by done. lia.
Qed.

Lemma consistent_empty : consistent empty_summary.
Proof.
  unfold consistent; simpl. rewrite sum_values_empty. lia.
Qed.

Lemma consistent_update (now : string) (result : DetectionResult) (st : StatsResponse) :
  consistent (summary st) →
  consistent (summary (_update_stats max_history now result st)).
Proof.
  unfold consistent. intros (Htypes & Hstatus & Htotal).
  unfold _update_stats; simpl.
  destruct (is_fruit result); simpl.
  - rewrite sum_values_bump.
    destruct (spoiled result); simpl; lia.
  - lia.
Qed.

Lemma consistent_apply_op (st : StatsResponse) (op : StoreOp) :
  consistent (summary st) → consistent (summary (apply_op max_history st op)).
Proof.
  intros Hst. destruct op as [now result | now].
  - exact (consistent_update now result st Hst).
  - exact consistent_empty.
Qed.

Lemma consistent_run (ops : list StoreOp) (st : StatsResponse) :
  consistent (summary st) → consistent (summary (run max_history ops st)).
Proof.
  unfold run. revert st.
  induction ops as [|op ops IH]; intros st Hst; simpl.
  - done.
  - apply IH. by apply consistent_apply_op.
Qed.

(** C1.  Every summary the statistics store produces, i.e. the summary
    after any sequence of recorded detections and resets starting from
    the freshly created store, satisfies: [total_fruits] is the sum of
    the [fruits_by_type] values, [total_fruits] is
    [fruits_by_status.OK + fruits_by_status.MALOGRADA], and
    [total_detections] is [total_fruits + total_non_fruits]. *)
Theorem stats_summary_invariant (now : string) (ops : list StoreOp) :
  let s := summary (get_stats (run max_history ops (fresh now))) in
  total_fruits s = sum_values (fruits_by_type s)
  ∧ total_fruits s = OK (fruits_by_status s) + MALOGRADA (fruits_by_status s)
  ∧ total_detections s = total_fruits s + total_non_fruits s.
Proof.
  intros s. subst s. unfold get_stats.
  apply (consistent_run ops (fresh now)).
  apply consistent_empty.
Qed.

(** C2.  [reset_stats()] followed at once by [get_stats()] yields
    all-zero counters, an empty [fruits_by_type], OK = 0 and
    MALOGRADA = 0, a success rate of 0 and an empty detection history,
    whatever the store held before. *)
Theorem reset_then_get_stats_is_zero (now : string) (st : StatsResponse) :
  let r := get_stats (reset_stats now st) in
  total_detections (summary r) = 0
  ∧ total_fruits (summary r) = 0
  ∧ total_non_fruits (summary r) = 0
  ∧ fruits_by_type (summary r) = ∅
  ∧ OK (fruits_by_status (summary r)) = 0
  ∧ MALOGRADA (fruits_by_status (summary r)) = 0
  ∧ success_rate (summary r) = 0%Q
  ∧ detection_history r = [].
Proof.
  intros r. subst r. unfold get_stats, reset_stats, empty_summary; simpl.
  repeat split.
Qed.

(** The same holds however many detections were recorded before the
    reset. *)
Lemma reset_after_any_run (now now' : string) (ops : list StoreOp) :
  get_stats (run max_history (ops ++ [OpReset now']) (fresh now)) = fresh now'.
Proof.
  unfold run, get_stats. rewrite foldl_app. reflexivity.
Qed.


(** The figures of the README's [GET /stats] example: 90 good apples,
    30 spoiled ones and 30 images without fruit. *)
Example readme_stats_example :
  let ops := (replicate 90 (OpRecord "t" Samples.buena)
              ++ replicate 30 (OpRecord "t" Samples.mala)
              ++ replicate 30 (OpRecord "t" Samples.no_fruta))%list in
  let s := summary (get_stats (run max_history ops (fresh "t"))) in
  total_detections s = 150
  ∧ total_fruits s = 120
  ∧ total_non_fruits s = 30
  ∧ fruits_by_type s !! "Manzana" = Some 120
  ∧ fruits_by_status s = {| OK := 90; MALOGRADA := 30 |}
  ∧ (success_rate s == 75 # 100)%Q.
Proof. vm_compute. repeat split. Qed.

End StoreProperties.

(** ** Fusion *)

Section FusionProperties.

Import FusionEngine.

(** [Qmax] is the larger of its arguments. *)
Lemma Qmax_upper (a b : Q) : (a <= Qmax a b)%Q ∧ (b <= Qmax a b)%Q.
Proof.
  unfold Qmax. destruct (Qle_bool b a) eqn:Hle.
  - apply Qle_bool_iff in Hle. split; [apply Qle_refl | exact Hle].
  - split; [| apply Qle_refl].
    destruct (Qlt_le_dec a b) as [Hlt | Hge].
    + by apply Qlt_le_weak.
    + apply Qle_bool_iff in Hge. congruence.
Qed.

Lemma Qmax_choice (a b : Q) : Qmax a b = a ∨ Qmax a b = b.
Proof. unfold Qmax. destruct (Qle_bool b a); auto. Qed.

Lemma exceeds_iff (c t : Q) : exceeds c t = true ↔ (t < c)%Q.
Proof.
  unfold exceeds. rewrite negb_true_iff. split.
  - intros Hle. destruct (Qlt_le_dec t c) as [Hlt | Hge]; [done |].
    apply Qle_bool_iff in Hge. congruence.
  - intros Hlt. destruct (Qle_bool c t) eqn:Hle; [| done].
    apply Qle_bool_iff in Hle. exfalso. by apply (Qlt_not_le t c).
Qed.

Lemma Label_eqb_eq (a b : Label) : Label_eqb a b = true ↔ a = b.
Proof. destruct a, b; simpl; split; congruence. Qed.

Lemma Label_eqb_neq (a b : Label) : a ≠ b → Label_eqb a b = false.
Proof.
  intros Hne. destruct (Label_eqb a b) eqn:Heq; [| done].
  apply Label_eqb_eq in Heq. contradiction.
Qed.

(** C6.  With a valid region: when model and heuristic agree on
    acceptable or defective the fused vote has that label, source =
    fused, and as its confidence the larger of the two confidences: one
    of them, and not below either; when they disagree the heuristic's
    label wins if its confidence exceeds the trust threshold and the
    model's label wins otherwise.  For model = acceptable@0.9 and
    heuristic = defective@0.95, the threshold 0.9 gives defective and the
    threshold 0.97 gives acceptable. *)
Theorem fusion_rule (trust_threshold : Q) (m h : ClassificationVote) :
  (label m = label h → is_verdict (label m) = true →
     label (fuse trust_threshold true m h) = label m
     ∧ source (fuse trust_threshold true m h) = fused
     ∧ (vote_confidence m <= vote_confidence (fuse trust_threshold true m h))%Q
     ∧ (vote_confidence h <= vote_confidence (fuse trust_threshold true m h))%Q
     ∧ (vote_confidence (fuse trust_threshold true m h) = vote_confidence m
        ∨ vote_confidence (fuse trust_threshold true m h) = vote_confidence h))
  ∧ (label m ≠ label h → (trust_threshold < vote_confidence h)%Q →
       label (fuse trust_threshold true m h) = label h)
  ∧ (label m ≠ label h → ¬ (trust_threshold < vote_confidence h)%Q →
       label (fuse trust_threshold true m h) = label m)
  ∧ (let model_vote :=
       {| label := acceptable; vote_confidence := (9 # 10)%Q; source := model |} in
     let heuristic_vote :=
       {| label := defective; vote_confidence := (95 # 100)%Q; source := heuristic |} in
     label (fuse (9 # 10)%Q true model_vote heuristic_vote) = defective
     ∧ label (fuse (97 # 100)%Q true model_vote heuristic_vote) = acceptable).
Proof.
  split; [| repeat split].
  - intros Hsame Hverdict. unfold fuse; simpl.
    rewrite <- Hsame.
    assert (Label_eqb (label m) (label m) = true) as -> by by apply Label_eqb_eq.
    rewrite Hverdict. simpl. unfold Qmax.
    destruct (Qle_bool (vote_confidence h) (vote_confidence m)) eqn:Hle.
    + apply Qle_bool_iff in Hle.
      repeat split; [apply Qle_refl | exact Hle | by left].
    + repeat split; [| apply Qle_refl | by right].
      destruct (Qlt_le_dec (vote_confidence m) (vote_confidence h)) as [Hlt | Hge].
      * by apply Qlt_le_weak.
      * apply Qle_bool_iff in Hge. congruence.
  - intros Hdiff Habove. unfold fuse; simpl.
    rewrite (Label_eqb_neq _ _ Hdiff); simpl.
    apply exceeds_iff in Habove. by rewrite Habove.
  - intros Hdiff Hbelow. unfold fuse; simpl.
    rewrite (Label_eqb_neq _ _ Hdiff); simpl.
    destruct (exceeds (vote_confidence h) trust_threshold) eqn:Hex; [| done].
    apply exceeds_iff in Hex. contradiction.
Qed.

(** An invalid region short-circuits both classifiers. *)
Lemma fuse_invalid_roi (trust_threshold : Q) (m h : ClassificationVote) :
  fuse trust_threshold false m h
  = {| label := no_object; vote_confidence := 1%Q; source := fused |}.
Proof. reflexivity. Qed.

End FusionProperties.

(** [fusion_rule] at the votes of the specification's example, and at
    two defective votes with the larger confidence on the model's side:
    the theorem leaves 0.97 as the only confidence the fused vote can
    have. *)
Lemma fusion_rule_witness :
  let m := {| FusionEngine.label := FusionEngine.acceptable;
              FusionEngine.vote_confidence := (9 # 10)%Q;
              FusionEngine.source := FusionEngine.model |} in
  let h := {| FusionEngine.label := FusionEngine.defective;
              FusionEngine.vote_confidence := (95 # 100)%Q;
              FusionEngine.source := FusionEngine.heuristic |} in
  let m' := {| FusionEngine.label := FusionEngine.defective;
               FusionEngine.vote_confidence := (97 # 100)%Q;
               FusionEngine.source := FusionEngine.model |} in
  FusionEngine.label (FusionEngine.fuse (9 # 10)%Q true m' h) = FusionEngine.defective
  ∧ FusionEngine.source (FusionEngine.fuse (9 # 10)%Q true m' h) = FusionEngine.fused
  ∧ FusionEngine.vote_confidence (FusionEngine.fuse (9 # 10)%Q true m' h)
    = (97 # 100)%Q
  ∧ FusionEngine.label (FusionEngine.fuse (9 # 10)%Q true m h) = FusionEngine.defective
  ∧ FusionEngine.label (FusionEngine.fuse (97 # 100)%Q true m h) = FusionEngine.acceptable.
Proof.
  intros m h m'.
  destruct (proj1 (fusion_rule (9 # 10)%Q m' h) eq_refl eq_refl)
    as (Hlabel & Hsource & Hmodel & _ & Hchoice).
  split; [exact Hlabel |]. split; [exact Hsource |]. split; [| split].
  - destruct Hchoice as [Hm | Hh]; [exact Hm |].
    rewrite Hh in Hmodel. vm_compute in Hmodel. by destruct Hmodel.
  - apply (proj1 (proj2 (fusion_rule (9 # 10)%Q m h))).
    + discriminate.
    + reflexivity.
  - apply (proj1 (proj2 (proj2 (fusion_rule (97 # 100)%Q m h)))).
    + discriminate.
    + intros Hlt. vm_compute in Hlt. discriminate.
Defined.

(** ** Camera lifecycle *)

Section CameraProperties.

Import CameraService.

Variable device : nat → nat → bool.
Variable max_history : nat.
Variable update_raises : DetectionResult → StatsResponse → option StatsResponse.


(** A successful [start_camera] leaves the camera running with an opened
    handle. *)
Lemma start_camera_success (camera_index : nat) (s s1 : State) :
  start_camera device camera_index s = (true, s1) →
  is_running s1 = true ∧ healthy (cap s1) = true.
Proof.
  unfold start_camera, finish_start.
  destruct (is_running s && healthy (cap s)) eqn:Halready.
  - intros [= <-]. by apply andb_prop in Halready.
  - simpl.
    destruct (device camera_index (handles_opened s)) eqn:Hfirst.
    + intros [= <-]. simpl. by rewrite Hfirst.
    + simpl. destruct (device camera_index (S (handles_opened s))) eqn:Hsecond.
      * intros [= <-]. simpl. by rewrite Hsecond.
      * intros [=].
Qed.

Lemma start_camera_running (camera_index : nat) (s : State) :
  is_running s = true → healthy (cap s) = true →
  start_camera device camera_index s = (true, s).
Proof.
  intros Hrun Hcap. unfold start_camera. by rewrite Hrun, Hcap.
Qed.




(** C4, as amended.  When the camera is already running with a healthy handle,
    [start_camera] changes nothing and returns success; so a call that
    follows a successful call, with no [stop_camera] in between, returns
    success again and leaves the state, the handle and the number of
    handles opened as they were, whatever the device would now answer. *)
Theorem start_camera_idempotent (camera_index : nat) (s s1 : State)
    (device' : nat → nat → bool) (camera_index' : nat) :
  (is_running s = true → healthy (cap s) = true →
     start_camera device camera_index s = (true, s))
  ∧ (start_camera device camera_index s = (true, s1) →
       start_camera device' camera_index' s1 = (true, s1)
       ∧ cap (start_camera device' camera_index' s1).2 = cap s1
       ∧ handles_opened (start_camera device' camera_index' s1).2
         = handles_opened s1).
Proof.
  split.
  - apply start_camera_running.
  - intros Hfirst.
    destruct (start_camera_success camera_index s s1 Hfirst) as [Hrun Hcap].
    assert (start_camera device' camera_index' s1 = (true, s1)) as Hsecond.
    { unfold start_camera. by rewrite Hrun, Hcap. }
    rewrite Hsecond. done.
Qed.


End CameraProperties.

(** ** Live-mode statistics *)

Section LiveProperties.

Import CameraService.

Variable max_history : nat.
Variable update_raises : DetectionResult → StatsResponse → option StatsResponse.













End LiveProperties.

(** ** Stream renderer *)

Section RendererProperties.

Import StreamRenderer.

Context {Frame : Type}.

Lemma box_colors_app (frame : Frame) (a b : list DrawOp) :
  box_colors (frame, (a ++ b)%list)
  = (box_colors (frame, a) ++ box_colors (frame, b))%list.
Proof. unfold box_colors; simpl. apply omap_app. Qed.

(** The mask overlay and the instructions draw no rectangle: the box is
    drawn exactly when there is a bounding box, green for a label that
    contains "buena" and red for every other label. *)
Lemma box_colors_display (frame : Frame) (mask : option (list nat))
    (bbox : option (nat * nat * nat * nat))
    (final_label : string) (final_conf : Q) (source : string) :
  box_colors (_create_display_frame frame mask bbox final_label final_conf source)
  = match bbox with
    | Some _ => [if contains "buena" final_label then green else red]
    | None => []
    end.
Proof.
  unfold _create_display_frame. rewrite !box_colors_app.
  assert (box_colors (frame, match mask with
                             | Some m => if any m then [AddWeighted m] else []
                             | None => []
                             end) = []) as ->.
  { destruct mask as [m |]; [| done]. by destruct (any m). }
  destruct bbox as [[[[x y] w] h] |]; reflexivity.
Qed.

(** C8, at the input where the code departs from it.  For the label
    "desconocido" and any bounding box, [_create_display_frame] draws
    the box red, which is neither yellow nor the colour the
    documentation's table lists for that label; "manzana_buena" is drawn
    green and "manzana_mala" red, and without a bounding box nothing is
    drawn. *)
Theorem unknown_label_box_is_red (frame : Frame) (mask : option (list nat))
    (x y w h : nat) (final_conf : Q) (source : string) :
  box_colors (_create_display_frame frame mask (Some (x, y, w, h))
                "desconocido" final_conf source) = [red]
  ∧ red ≠ yellow ∧ red ≠ documented_yellow
  ∧ box_colors (_create_display_frame frame mask (Some (x, y, w, h))
                  "manzana_buena" final_conf source) = [green]
  ∧ box_colors (_create_display_frame frame mask (Some (x, y, w, h))
                  "manzana_mala" final_conf source) = [red]
  ∧ box_colors (_create_display_frame frame mask None
                  "no_fruta" final_conf source) = [].
Proof.
  rewrite !box_colors_display. repeat split; discriminate.
Qed.

End RendererProperties.

(** ** Interface *)

Section FrontendProperties.

Import Frontend.

Variable divide : nat → nat → Q.
Variable round_percent : Q → Z.

Lemma js_or_zero (b : nat) : js_or 0 b = b.
Proof. reflexivity. Qed.

Lemma js_or_truthy (a b : nat) : a ≠ 0 → js_or a b = a.
Proof.
  intros Hne. unfold js_or, truthy.
  destruct (Nat.eqb_spec a 0); [contradiction | done].
Qed.

(** C9.  With a backend summary present: a [total_detections] of 0
    makes the panel show [goodCount + badCount] as the total, a
    [total_fruits] of 0 makes it show [goodCount + badCount] as the
    number of fruits, and a [success_rate] of 0 makes it show the
    locally computed rate, since [||] and the conditional test
    truthiness and 0 is falsy. *)
Theorem stats_panel_falls_back_on_zero (goodCount badCount : nat)
    (backend : StatsResponse) :
  let view := StatsPanel divide round_percent goodCount badCount (Some backend) in
  (total_detections (summary backend) = 0 →
     totalDetections view = goodCount + badCount)
  ∧ (total_fruits (summary backend) = 0 →
       totalFruits view = goodCount + badCount)
  ∧ ((success_rate (summary backend) == 0)%Q →
       backendSuccessRate view
       = if 0 <? goodCount + badCount
         then round_percent (divide goodCount (goodCount + badCount))
         else 0%Z).
Proof.
  intros view. subst view. unfold StatsPanel; simpl.
  split; [| split].
  - intros ->. apply js_or_zero.
  - intros ->. apply js_or_zero.
  - intros Hzero. apply Qeq_bool_iff in Hzero. by rewrite Hzero.
Qed.

(** A nonzero backend value is the one shown. *)
Lemma stats_panel_uses_backend (goodCount badCount : nat) (backend : StatsResponse) :
  total_detections (summary backend) ≠ 0 →
  totalDetections (StatsPanel divide round_percent goodCount badCount (Some backend))
  = total_detections (summary backend).
Proof. intros Hne. unfold StatsPanel; simpl. by apply js_or_truthy. Qed.

(** C10.  With [isLive] false, [handleCapture] returns the state as it
    was and asks for nothing: no request to the backend, no timer that
    would classify, no counter touched; so for the handler of
    [src/App.tsx] and for the one that talks to the backend. *)
Theorem handleCapture_idle_when_not_live (s : AppState) :
  isLive s = false →
  App.handleCapture s = (s, [])
  ∧ AppStreaming.handleCapture s = (s, [])
  ∧ requests_backend (App.handleCapture s).2 = false
  ∧ requests_backend (AppStreaming.handleCapture s).2 = false
  ∧ goodCount (AppStreaming.handleCapture s).1 = goodCount s
  ∧ badCount (AppStreaming.handleCapture s).1 = badCount s.
Proof.
  intros Hidle.
  assert (App.handleCapture s = (s, [])) as Hsimple.
  { unfold App.handleCapture. by rewrite Hidle. }
  assert (AppStreaming.handleCapture s = (s, [])) as Hbackend.
  { unfold AppStreaming.handleCapture. by rewrite Hidle. }
  rewrite Hsimple, Hbackend. done.
Qed.

(** After a reset the reloaded statistics put both counters of the
    interface back to zero. *)
Lemma loadStats_after_reset (now : string) (st : StatsResponse) (s : AppState) :
  let s' := loadStats_resolved
              (DetectionService.get_stats (DetectionService.reset_stats now st)) s in
  goodCount s' = 0 ∧ badCount s' = 0.
Proof. done. Qed.

(** With live mode on the same control does act. *)
Lemma handleCapture_live (s : AppState) :
  isLive s = true →
  (App.handleCapture s).2 = [SetTimeout simulation_done 2000]
  ∧ (backendConnected s = Some true →
       (AppStreaming.handleCapture s).2 = [Fetch POST CAPTURE]).
Proof.
  intros Hlive. unfold App.handleCapture, AppStreaming.handleCapture.
  rewrite Hlive. split; [done |].
  intros Hconnected. by rewrite (bool_decide_eq_true_2 _ Hconnected).
Qed.

End FrontendProperties.

(** ** The theorems at concrete inputs *)



(** With the camera present but no result from the rest of the method,
    the capture after the stop returns [None] as well. *)
Example capture_after_stop_without_result :
  (CameraService.capture_frame Samples.camera_present 100 Samples.never_raises
     None (Samples.halted (Some Samples.empty_store))).1
  = None.
Proof. vm_compute. reflexivity. Qed.

(** A camera that cannot be opened: neither of two calls in a row
    returns success. *)
Lemma start_camera_twice_fails_without_camera :
  let first := CameraService.start_camera Samples.camera_absent 0 (Samples.idle None) in
  first.1 = false
  ∧ (CameraService.start_camera Samples.camera_absent 0 first.2).1 = false.
Proof. vm_compute. split; reflexivity. Qed.

(** [start_camera_idempotent] at a service started once: the second
    call succeeds and opens nothing, even for a camera that would no
    longer open. *)
Lemma start_camera_idempotent_witness :
  CameraService.start_camera Samples.camera_absent 1 (Samples.running None)
  = (true, Samples.running None)
  ∧ CameraService.handles_opened
      (CameraService.start_camera Samples.camera_absent 1 (Samples.running None)).2
    = 1
  ∧ CameraService.start_camera Samples.camera_present 0 (Samples.running None)
    = (true, Samples.running None).
Proof.
  destruct (start_camera_idempotent Samples.camera_present 0
              (Samples.idle None) (Samples.running None)
              Samples.camera_absent 1) as [_ Hsecond].
  destruct (start_camera_idempotent Samples.camera_present 0
              (Samples.running None) (Samples.running None)
              Samples.camera_absent 1) as [Hnoop _].
  destruct Hsecond as (Hsame & _ & Hcount); [reflexivity |].
  split; [exact Hsame | split; [exact Hcount |]].
  apply Hnoop; reflexivity.
Defined.


(** The same with a [DetectionService] whose update raises: the result
    is returned and the statistics still count nothing. *)
Example capture_with_failing_update_records_nothing :
  (CameraService.capture_frame Samples.camera_present 100 Samples.always_raises
     (Some Samples.buena) (Samples.live (Some Samples.empty_store))).1
  = Some Samples.buena
  ∧ CameraService.detection_service
      (CameraService.capture_frame Samples.camera_present 100 Samples.always_raises
         (Some Samples.buena) (Samples.live (Some Samples.empty_store))).2
    = Some Samples.empty_store.
Proof. vm_compute. split; reflexivity. Qed.



(** The statistics after those three frames count three detections,
    and an empty scene between two apples changes nothing. *)
Example three_frames_three_detections :
  (total_detections ∘ summary <$>
     CameraService.detection_service
       (CameraService.live_run 100 Samples.never_raises
          [Samples.buena; Samples.buena; Samples.buena]
          (Samples.live (Some Samples.empty_store))).1.1)
  = Some 3
  ∧ (CameraService.live_run 100 Samples.never_raises
       [Samples.buena; Samples.no_fruta; Samples.buena; Samples.mala]
       (Samples.live (Some Samples.empty_store))).1.2
    = [Samples.buena; Samples.buena; Samples.mala].
Proof. vm_compute. split; reflexivity. Qed.

(** [stats_panel_falls_back_on_zero] right after a reset, with three
    good and one bad apple counted in the interface. *)
Lemma stats_panel_falls_back_on_zero_witness :
  let view := Frontend.StatsPanel Samples.exact_divide Samples.exact_round_percent
                3 1 (Some Samples.empty_store) in
  Frontend.totalDetections view = 4
  ∧ Frontend.totalFruits view = 4
  ∧ Frontend.backendSuccessRate view = 75%Z.
Proof.
  destruct (stats_panel_falls_back_on_zero Samples.exact_divide
              Samples.exact_round_percent 3 1 Samples.empty_store)
    as (Hdetections & Hfruits & Hrate).
  split; [| split].
  - apply Hdetections. reflexivity.
  - apply Hfruits. reflexivity.
  - rewrite Hrate; reflexivity.
Defined.

(** [handleCapture_idle_when_not_live] at the interface in manual mode. *)
Lemma handleCapture_idle_when_not_live_witness :
  Frontend.App.handleCapture Samples.manual_app = (Samples.manual_app, [])
  ∧ Frontend.AppStreaming.handleCapture Samples.manual_app = (Samples.manual_app, []).
Proof.
  destruct (handleCapture_idle_when_not_live Samples.manual_app)
    as (Hsimple & Hbackend & _).
  - reflexivity.
  - split; [exact Hsimple | exact Hbackend].
Defined.

(** * Further properties of the interface and the camera service *)

(** ** [services/api.ts] *)

Section ApiServiceProperties.

Import ApiService.

Lemma append_cons (x : Ascii.ascii) (a b : string) :
  String x a +:+ b = String x (a +:+ b).
Proof. reflexivity. Qed.

Lemma append_assoc (a b c : string) : (a +:+ b) +:+ c = a +:+ (b +:+ c).
Proof.
  induction a as [| x a IH]; [done |].
  rewrite !append_cons. by rewrite IH.
Qed.

Lemma prefix_empty (s : string) : String.prefix "" s = true.
Proof. by destruct s. Qed.

Lemma prefix_cons (c x : Ascii.ascii) (a b : string) :
  String.prefix (String c a) (String x b)
  = if Ascii.ascii_dec c x then String.prefix a b else false.
Proof. reflexivity. Qed.

Lemma prefix_append (a b : string) : String.prefix a (a +:+ b) = true.
Proof.
  induction a as [| x a IH]; [apply prefix_empty |].
  rewrite append_cons, prefix_cons.
  by destruct (Ascii.ascii_dec x x).
Qed.

Lemma drop_chars_append (a b : string) : drop_chars (String.length a) (a +:+ b) = b.
Proof. induction a as [| x a IH]; [done | exact IH]. Qed.

Lemma replace_first_unfold (needle replacement hay : string) :
  replace_first needle replacement hay
  = if String.prefix needle hay
    then replacement +:+ drop_chars (String.length needle) hay
    else match hay with
         | EmptyString => EmptyString
         | String c rest => String c (replace_first needle replacement rest)
         end.
Proof. by destruct hay. Qed.

Lemma occurs_unfold (needle hay : string) :
  occurs needle hay
  = String.prefix needle hay
    || match hay with
       | EmptyString => false
       | String _ rest => occurs needle rest
       end.
Proof. by destruct hay. Qed.

(** The first occurrence being at the very start, it is what goes. *)
Lemma replace_first_at_start (needle replacement rest : string) :
  replace_first needle replacement (needle +:+ rest) = replacement +:+ rest.
Proof.
  rewrite replace_first_unfold, prefix_append. by rewrite drop_chars_append.
Qed.

Lemma replace_backslashes_append (a b : string) :
  replace_backslashes (a +:+ b) = replace_backslashes a +:+ replace_backslashes b.
Proof.
  induction a as [| x a IH]; [done |].
  rewrite append_cons. simpl. rewrite append_cons. by rewrite IH.
Qed.

Lemma replace_backslashes_clean (s : string) :
  occurs (String backslash "") (replace_backslashes s) = false.
Proof.
  induction s as [| c s IH]; [done |].
  cbn [replace_backslashes]. rewrite occurs_unfold, prefix_cons.
  destruct (Ascii.ascii_dec backslash (if Ascii.eqb c backslash then slash else c))
    as [Heq | _]; [exfalso | exact IH].
  destruct (Ascii.eqb c backslash) eqn:Hc.
  - vm_compute in Heq. discriminate.
  - rewrite <- Heq, Ascii.eqb_refl in Hc. discriminate.
Qed.

Lemma replace_backslashes_idempotent (s : string) :
  replace_backslashes (replace_backslashes s) = replace_backslashes s.
Proof.
  induction s as [| c s IH]; [done |].
  simpl. rewrite IH. f_equal.
  destruct (Ascii.eqb c backslash) eqn:Hc; [done |]. by rewrite Hc.
Qed.

Lemma drop_chars_clean (c : Ascii.ascii) (n : nat) (s : string) :
  occurs (String c "") s = false → occurs (String c "") (drop_chars n s) = false.
Proof.
  revert s. induction n as [| n IH]; intros s Hs; [done |].
  destruct s as [| x s]; [done |]. simpl.
  apply IH. rewrite occurs_unfold in Hs.
  by apply orb_false_elim in Hs as [_ Hs].
Qed.

Lemma replace_first_unmatched (needle replacement hay : string) :
  occurs needle hay = false → replace_first needle replacement hay = hay.
Proof.
  induction hay as [| c hay IH]; intros Hno;
    rewrite occurs_unfold in Hno; apply orb_false_elim in Hno as [Hhead Hrest];
    rewrite replace_first_unfold, Hhead; [done |].
  by rewrite (IH Hrest).
Qed.

Lemma replace_first_clean (c : Ascii.ascii) (needle hay : string) :
  occurs (String c "") hay = false →
  occurs (String c "") (replace_first needle "" hay) = false.
Proof.
  induction hay as [| x hay IH]; intros Hclean; rewrite replace_first_unfold.
  - destruct (String.prefix needle ""); [| done].
    by destruct (String.length needle).
  - destruct (String.prefix needle (String x hay)).
    + change ("" +:+ ?s) with s. by apply drop_chars_clean.
    + rewrite occurs_unfold, prefix_cons in Hclean |- *.
      apply orb_false_elim in Hclean as [Hhead Hrest].
      rewrite prefix_empty in Hhead |- *.
      rewrite Hhead. simpl. by apply IH.
Qed.

(** X1.  A path inside the backend's output directory, written with
    slashes or with backslashes, becomes the static URL of the same
    file: [salidas/] is dropped and every remaining backslash is a
    slash. *)
Theorem getImageUrl_output_path (baseUrl rest : string) :
  getImageUrl baseUrl ("salidas/" +:+ rest)
  = baseUrl +:+ "/static/" +:+ replace_backslashes rest
  ∧ getImageUrl baseUrl ("salidas\" +:+ rest)
    = baseUrl +:+ "/static/" +:+ replace_backslashes rest.
Proof.
  unfold getImageUrl. rewrite !replace_backslashes_append.
  change (replace_backslashes "salidas/") with "salidas/".
  change (replace_backslashes "salidas\") with "salidas/".
  by rewrite replace_first_at_start.
Qed.

(** X2.  The path part of the URL never contains a backslash; it is
    the same for a path and for its spelling with slashes; and a path
    in which [salidas/] does not occur is kept whole. *)
Theorem getImageUrl_normalises (baseUrl filePath : string) :
  (∃ relativePath,
      getImageUrl baseUrl filePath = baseUrl +:+ "/static/" +:+ relativePath
      ∧ occurs (String backslash "") relativePath = false)
  ∧ getImageUrl baseUrl (replace_backslashes filePath) = getImageUrl baseUrl filePath
  ∧ (occurs "salidas/" (replace_backslashes filePath) = false →
       getImageUrl baseUrl filePath
       = baseUrl +:+ "/static/" +:+ replace_backslashes filePath).
Proof.
  unfold getImageUrl. split; [| split].
  - eexists. split; [reflexivity |].
    apply replace_first_clean, replace_backslashes_clean.
  - by rewrite replace_backslashes_idempotent.
  - intros Hno. by rewrite replace_first_unmatched.
Qed.

End ApiServiceProperties.

(** [getImageUrl_normalises] at a Windows path outside the output
    directory. *)
Lemma getImageUrl_normalises_witness :
  ApiService.getImageUrl "http://localhost:8000" "capturas\hoy\manzana.jpg"
  = "http://localhost:8000/static/capturas/hoy/manzana.jpg".
Proof.
  destruct (getImageUrl_normalises "http://localhost:8000" "capturas\hoy\manzana.jpg")
    as (_ & _ & Hkept).
  rewrite Hkept; reflexivity.
Defined.

(** ** [App.tsx]: capture, reset and navigation *)

Section AppProperties.

Import Frontend.



(** X4.  A capture that succeeds sends [POST /capture] and then
    [GET /stats], shows the result, clears the error and ends with
    [isProcessing] false.  The result is first counted once in the
    interface (good when it is a fruit that is not spoiled, bad when it
    is a spoiled fruit, neither when it is no fruit); when the
    statistics then arrive, both counters are replaced by the backend's
    OK and MALOGRADA, whatever was counted; the single increment stands
    only when the reload fails. *)
Theorem successful_capture_follows_backend (result : DetectionResult)
    (stats_fetched : ApiService.Outcome (ApiService.Response StatsResponse))
    (s : AppState) :
  isLive s = true → backendConnected s = Some true →
  let '(s', effects) :=
    CaptureFlow.handleCapture_settled
      (ApiService.Resolved (inl (ApiService.Resolved result))) stats_fetched s in
  effects = [Fetch POST CAPTURE; Fetch GET STATS]
  ∧ detectionResult s' = Some result
  ∧ error s' = None
  ∧ isProcessing s' = false
  ∧ match ApiService.getStats stats_fetched with
    | ApiService.Resolved statsData =>
        goodCount s' = OK (fruits_by_status (summary statsData))
        ∧ badCount s' = MALOGRADA (fruits_by_status (summary statsData))
        ∧ stats s' = Some statsData
    | ApiService.Rejected _ =>
        goodCount s' + badCount s'
        = goodCount s + badCount s + (if is_fruit result then 1 else 0)
        ∧ (spoiled result = true → goodCount s' = goodCount s)
        ∧ (spoiled result = false → badCount s' = badCount s)
        ∧ stats s' = stats s
    end.
Proof.
  intros Hlive Hconnected.
  unfold CaptureFlow.handleCapture_settled, CaptureFlow.handleCapture.
  rewrite Hlive, (bool_decide_eq_true_2 _ Hconnected). simpl.
  unfold AppShell.loadStats.
  destruct (ApiService.getStats stats_fetched) as [statsData | message]; simpl.
  - repeat split.
  - destruct (is_fruit result), (spoiled result); simpl; repeat split; try lia; try done.
Qed.

(** X5.  [handleStatsReset]: when [DELETE /stats] fails, for any
    reason, the state is untouched and no [GET /stats] follows; when it
    succeeds and the reload succeeds both counters are the backend's OK
    and MALOGRADA and the statistics shown are the reloaded ones; when
    it succeeds and the reload fails the state is untouched although
    the backend has been reset. *)
Theorem handleStatsReset_outcomes
    (reset_fetched : ApiService.Outcome (ApiService.Response string))
    (stats_fetched : ApiService.Outcome (ApiService.Response StatsResponse))
    (s : AppState) :
  let '(s', requests) := AppShell.handleStatsReset reset_fetched stats_fetched s in
  match ApiService.resetStats reset_fetched, ApiService.getStats stats_fetched with
  | ApiService.Rejected _, _ => s' = s ∧ requests = [Fetch DELETE STATS]
  | ApiService.Resolved _, ApiService.Rejected _ =>
      s' = s ∧ requests = [Fetch DELETE STATS; Fetch GET STATS]
  | ApiService.Resolved _, ApiService.Resolved statsData =>
      goodCount s' = OK (fruits_by_status (summary statsData))
      ∧ badCount s' = MALOGRADA (fruits_by_status (summary statsData))
      ∧ stats s' = Some statsData
      ∧ requests = [Fetch DELETE STATS; Fetch GET STATS]
  end.
Proof.
  unfold AppShell.handleStatsReset, AppShell.loadStats.
  destruct (ApiService.resetStats reset_fetched) as [confirmation | message]; [| done].
  by destruct (ApiService.getStats stats_fetched) as [statsData | message].
Qed.

(** A reset fails exactly when the request is rejected, the answer is
    not ok, or its body cannot be read. *)
Lemma resetStats_rejected (fetched : ApiService.Outcome (ApiService.Response string)) :
  (∃ message, ApiService.resetStats fetched = ApiService.Rejected message)
  ↔ match fetched with
    | ApiService.Rejected _ => True
    | ApiService.Resolved response =>
        ApiService.ok response = false
        ∨ ∃ message, ApiService.json response = ApiService.Rejected message
    end.
Proof.
  unfold ApiService.resetStats, ApiService.expect_ok.
  destruct fetched as [[[] text body] | message]; simpl.
  - split; [intros [m ->]; right; by exists m | intros [[=] | [m ->]]; by exists m].
  - split; [by left | intros _; by eexists].
  - split; [done | intros _; by eexists].
Qed.

End AppProperties.


(** The same capture answered with an empty list as [detail], and with
    the body [null]. *)
Example failed_capture_odd_bodies :
  let s := AppShell.setIsLive true Samples.manual_app in
  Frontend.error
    (CaptureFlow.handleCapture
       (ApiService.Resolved (inr InterfaceSamples.failure_empty_list)) s).1
  = Some ""
  ∧ Frontend.error
      (CaptureFlow.handleCapture
         (ApiService.Resolved (inr InterfaceSamples.failure_null)) s).1
    = Some "Cannot read properties of null (reading 'detail')".
Proof. split; reflexivity. Qed.

(** [successful_capture_follows_backend] for a good apple captured
    with three good and one bad counted by hand, the backend having
    seen this one apple only: the interface ends with one good and no
    bad apple. *)
Lemma successful_capture_follows_backend_witness :
  let s := AppShell.setIsLive true Samples.manual_app in
  let s' := (CaptureFlow.handleCapture_settled
               (ApiService.Resolved (inl (ApiService.Resolved Samples.buena)))
               InterfaceSamples.stats_answer s).1 in
  Frontend.goodCount s = 3 ∧ Frontend.badCount s = 1
  ∧ Frontend.goodCount s' = 1 ∧ Frontend.badCount s' = 0.
Proof.
  intros s s'. subst s'.
  pose proof (successful_capture_follows_backend Samples.buena
                InterfaceSamples.stats_answer s eq_refl eq_refl) as H.
  destruct (CaptureFlow.handleCapture_settled _ _ s) as [s' effects].
  destruct H as (_ & _ & _ & _ & Hgood & Hbad & _).
  split; [reflexivity |]. split; [reflexivity |].
  split; [exact Hgood | exact Hbad].
Defined.

Section ShellProperties.

Import Frontend AppShell.

(** X6.  After a sidebar change to a tab other than "settings" the
    content shown depends on the tab alone, whatever was open before:
    "home" shows the home panel, "upload" the upload panel, "stats" the
    statistics, and every other tab the camera view; MONITOREO always
    leads to the camera view with live mode on, ESTADISTICAS to the
    statistics, SALIR to the home panel with live mode off. *)
Theorem navigation_content (tab : string) (sh : Shell) :
  (tab ≠ "settings" →
     renderMainContent (handleTabChange tab sh)
     = if bool_decide (tab = "stats") then Statistics
       else if bool_decide (tab = "home") then Home
       else if bool_decide (tab = "upload") then Upload
       else CameraView)
  ∧ renderMainContent (handleTabChange "settings" sh) = SettingsPlaceholder
  ∧ (renderMainContent (handleStartMonitoring sh).1 = CameraView
     ∧ isLive (app (handleStartMonitoring sh).1) = true)
  ∧ renderMainContent (handleShowStats sh) = Statistics
  ∧ (renderMainContent (handleExit sh) = Home
     ∧ isLive (app (handleExit sh)) = false).
Proof.
  split; [| done].
  intros Hother. unfold renderMainContent, handleTabChange; simpl.
  rewrite !(bool_decide_eq_false_2 (tab = "settings")) by done.
  simpl. by rewrite orb_false_r.
Qed.

(** X7.  The settings panel does not close the statistics: when it is
    opened from the sidebar while the statistics are shown and then
    closed, the active tab is "home" but the content is still the
    statistics; had the statistics not been showing, the home panel
    appears. *)
Theorem settings_over_statistics (sh : Shell) :
  let back := closeSettings (handleTabChange "settings" sh) in
  activeTab back = "home"
  ∧ showSettings back = false
  ∧ renderMainContent back = (if showStats sh then Statistics else Home)
  ∧ renderMainContent (closeSettings (handleTabChange "settings" (handleShowStats sh)))
    = Statistics.
Proof.
  intros back. subst back. unfold renderMainContent; simpl.
  by destruct (showStats sh).
Qed.

(** X8.  [handleToggleLive] twice gives back the state it started
    from; the first call flips [isLive] and touches nothing else, and of
    the two calls exactly the one that turns live mode on schedules the
    simulated classification, after three seconds. *)
Theorem handleToggleLive_twice (s : AppState) :
  let first := handleToggleLive s in
  let second := handleToggleLive first.1 in
  second.1 = s
  ∧ isLive first.1 = negb (isLive s)
  ∧ goodCount first.1 = goodCount s ∧ badCount first.1 = badCount s
  ∧ (first.2, second.2)
    = if isLive s then (None, Some 3000) else (Some 3000, None).
Proof.
  intros first second. subst first second.
  destruct s as [g b live p l a c w d st e bc str]; simpl.
  rewrite negb_involutive. by destruct live.
Qed.

(** X9.  Confirming or correcting an automatic classification counts
    exactly one apple and ends the wait for the operator; confirming
    counts the class shown and clears it, correcting counts the other
    class and shows that one.  With no automatic classification to go
    by, confirming counts a bad apple and correcting a good one. *)
Theorem operator_decision_counts_one (s : AppState) :
  let confirmed := handleConfirmClassification s in
  let corrected := handleCorrectClassification s in
  goodCount confirmed + badCount confirmed = S (goodCount s + badCount s)
  ∧ goodCount corrected + badCount corrected = S (goodCount s + badCount s)
  ∧ isAwaitingConfirmation confirmed = false
  ∧ isAwaitingConfirmation corrected = false
  ∧ autoClassification confirmed = None
  ∧ (if bool_decide (autoClassification s = Some "BUENA")
     then goodCount confirmed = S (goodCount s)
          ∧ lastClassification confirmed = Some "BUENA"
          ∧ badCount corrected = S (badCount s)
          ∧ lastClassification corrected = Some "MALA"
          ∧ autoClassification corrected = Some "MALA"
     else badCount confirmed = S (badCount s)
          ∧ lastClassification confirmed = Some "MALA"
          ∧ goodCount corrected = S (goodCount s)
          ∧ lastClassification corrected = Some "BUENA"
          ∧ autoClassification corrected = Some "BUENA").
Proof.
  intros confirmed corrected. subst confirmed corrected.
  unfold handleConfirmClassification, handleCorrectClassification, is_BUENA.
  destruct (bool_decide (autoClassification s = Some "BUENA")); simpl;
    repeat split; lia.
Qed.

(** X10.  After SALIR the CAPTURAR control does nothing, in either
    version of the interface and however a request would go; after
    MONITOREO it acts again. *)
Theorem capture_after_exit
    (fetched : ApiService.Outcome (ApiService.Outcome DetectionResult + ApiService.Failure))
    (sh : Shell) :
  let left := handleExit sh in
  let back := (handleStartMonitoring left).1 in
  App.handleCapture (app left) = (app left, [])
  ∧ CaptureFlow.handleCapture fetched (app left) = (app left, [])
  ∧ (App.handleCapture (app back)).2 = [SetTimeout simulation_done 2000]
  ∧ (CaptureFlow.handleCapture fetched (app back)).2 ≠ [].
Proof.
  intros left back. subst left back.
  unfold App.handleCapture, CaptureFlow.handleCapture, AppStreaming.handleCapture; simpl.
  repeat split.
  destruct (bool_decide (backendConnected (app sh) = Some true)); [| done].
  destruct (ApiService.captureAndDetect fetched) as [result | message]; [| done].
  unfold AppStreaming.handleCapture_resolved; simpl. done.
Qed.

(** X11.  The Reset Stats button of the camera panel, wired to
    [handleStatsReset] as [App] does: without a backend nothing is
    sent; with one, a reset that fails leaves the interface as it was
    after a single [DELETE /stats]; a reset that succeeds is followed by
    the parent's own reset, so [DELETE /stats] is sent twice before the
    statistics are reloaded.  In every case with a backend the button
    ends enabled again. *)
Theorem camera_panel_reset_requests (isResetting : bool) (p : CameraPanel.Props)
    (first second : ApiService.Outcome (ApiService.Response string))
    (reload : ApiService.Outcome (ApiService.Response StatsResponse))
    (s : AppState) :
  let '(resetting, s', requests) :=
    CameraPanel.handleResetStats isResetting p first
      (Some (handleStatsReset second reload)) s in
  if CameraPanel.backendConnected p then
    resetting = false
    ∧ match ApiService.resetStats first with
      | ApiService.Rejected _ => s' = s ∧ requests = [Fetch DELETE STATS]
      | ApiService.Resolved _ =>
          s' = (handleStatsReset second reload s).1
          ∧ ∃ rest, requests = (Fetch DELETE STATS :: Fetch DELETE STATS :: rest)%list
                    ∧ (rest = [] ∨ rest = [Fetch GET STATS])
      end
  else resetting = isResetting ∧ s' = s ∧ requests = [].
Proof.
  unfold CameraPanel.handleResetStats.
  destruct (CameraPanel.backendConnected p); simpl; [| done].
  destruct (ApiService.resetStats first) as [confirmation | message]; [| done].
  unfold handleStatsReset, loadStats.
  destruct (ApiService.resetStats second) as [confirmation' | message'].
  - split; [done |]. split; [done |]. exists [Fetch GET STATS]. auto.
  - split; [done |]. split; [done |]. exists []. auto.
Qed.

End ShellProperties.

(** [navigation_content] at the camera tab, from the statistics. *)
Lemma navigation_content_witness :
  AppShell.renderMainContent
    (AppShell.handleTabChange "camera"
       (AppShell.handleShowStats
          {| AppShell.app := Samples.manual_app; AppShell.activeTab := "home";
             AppShell.showSettings := false; AppShell.showStats := false;
             AppShell.selectedFruit := "apple" |}))
  = AppShell.CameraView.
Proof.
  destruct (navigation_content "camera"
              (AppShell.handleShowStats
                 {| AppShell.app := Samples.manual_app; AppShell.activeTab := "home";
                    AppShell.showSettings := false; AppShell.showStats := false;
                    AppShell.selectedFruit := "apple" |})) as [Htab _].
  rewrite Htab; [reflexivity | discriminate].
Defined.

(** ** The components *)

Section ComponentProperties.

Variable percent_one_decimal : Q → string.

(** X12.  A detection result is shown the way it is counted: while
    nothing is being processed, the camera panel's status is red, and
    the result panel says "Manzana en mal estado", exactly when
    [handleDetectionResult] counts a bad apple; it is green, and the
    text "Manzana en buen estado", exactly when a good apple is
    counted; and the camera panel says "No se detectó fruta" exactly
    when the result panel does. *)
Theorem result_shown_as_counted (result : DetectionResult)
    (s : Frontend.AppState) (p : CameraPanel.Props) :
  CameraPanel.isProcessing p = false →
  CameraPanel.detectionResult p = Some result →
  let s' := (Frontend.handleDetectionResult result s).1 in
  let text := DetectionResults.getClassificationText result in
  let color := CameraPanel.getStatusColor p in
  (Frontend.badCount s' = S (Frontend.badCount s) ↔ text = "Manzana en mal estado")
  ∧ (color = "text-red-600" ↔ text = "Manzana en mal estado")
  ∧ (Frontend.goodCount s' = S (Frontend.goodCount s) ↔ text = "Manzana en buen estado")
  ∧ (color = "text-emerald-600" ↔ text = "Manzana en buen estado")
  ∧ (CameraPanel.getStatusText percent_one_decimal p = "No se detectó fruta"
     ↔ text = "No se detectó fruta").
Proof.
  intros Hidle Hresult s' text color. subst s' text color.
  unfold CameraPanel.getStatusColor, CameraPanel.getStatusText,
    DetectionResults.getClassificationText, Frontend.handleDetectionResult.
  rewrite Hidle, Hresult.
  destruct (is_fruit result), (spoiled result); simpl;
    repeat split; intros H; try done; try lia;
    try (apply (f_equal (λ t, String.get 0 t)) in H; vm_compute in H; discriminate).
Qed.

End ComponentProperties.

(** [result_shown_as_counted] for a spoiled apple. *)
Lemma result_shown_as_counted_witness :
  CameraPanel.getStatusColor InterfaceSamples.panel_with_mala = "text-red-600".
Proof.
  destruct (result_shown_as_counted (λ _, "72.0") Samples.mala Samples.manual_app
              InterfaceSamples.panel_with_mala eq_refl eq_refl)
    as (_ & Hred & _).
  apply Hred. reflexivity.
Defined.

Section UploadProperties.

Import ImageUpload.

(** X13.  [handleFileSelect] takes a file exactly when its type starts
    with "image/" and it is no larger than 10 MB: then the file is
    selected, a fresh preview URL is made and no error is raised;
    otherwise the selection, the preview and the browser's URLs are all
    untouched and exactly one error is raised.  Every type listed in
    [FILE_CONFIG.ALLOWED_TYPES] passes the type test. *)
Theorem handleFileSelect_validates (file : File) (st : State) (br : Browser) :
  let '(st', br', errors) := handleFileSelect file st br in
  (if acceptable file
   then selectedFile st' = Some file
        ∧ previewUrl st' = Some (next_url br)
        ∧ next_url br ∈ live_urls br'
        ∧ errors = []
   else st' = st ∧ br' = br ∧ length errors = 1)
  ∧ (type file ∈ ALLOWED_TYPES → String.prefix "image/" (type file) = true).
Proof.
  assert (type file ∈ ALLOWED_TYPES → String.prefix "image/" (type file) = true)
    as Hlist.
  { unfold ALLOWED_TYPES. intros Hlisted.
    repeat (apply elem_of_cons in Hlisted as [-> | Hlisted]; [reflexivity |]).
    by apply elem_of_nil in Hlisted. }
  unfold handleFileSelect, acceptable, MAX_SIZE.
  destruct (String.prefix "image/" (type file)); simpl; [| done].
  destruct (N.leb_spec (size file) (10 * 1024 * 1024)) as [Hfits | Hbig].
  - assert ((10 * 1024 * 1024 <? size file)%N = false) as -> by by apply N.ltb_ge.
    simpl. repeat split; try done. set_solver.
  - assert ((10 * 1024 * 1024 <? size file)%N = true) as -> by by apply N.ltb_lt.
    done.
Qed.

(** X14.  Choosing a file and clearing it again leaves no selection and
    no preview, and the browser holds exactly the object URLs it held
    before; so a preview that was showing when the file was chosen is
    still held, although nothing refers to it any more: [clearFile]
    revokes the current preview only, and [handleFileSelect] none. *)
Theorem preview_url_round_trip (file : File) (st : State) (br : Browser) :
  acceptable file = true → well_formed br →
  let '(st1, br1, _) := handleFileSelect file st br in
  let '(st2, br2) := clearFile st1 br1 in
  selectedFile st2 = None
  ∧ previewUrl st2 = None
  ∧ live_urls br2 = live_urls br
  ∧ well_formed br2
  ∧ (∀ old, previewUrl st = Some old → old ∈ live_urls br →
       old ∈ live_urls br1 ∧ old ∈ live_urls br2 ∧ previewUrl st1 ≠ Some old).
Proof.
  intros Hok Hwf. unfold acceptable, MAX_SIZE in Hok.
  apply andb_prop in Hok as [Htype Hsize]. apply N.leb_le in Hsize.
  unfold handleFileSelect. rewrite Htype; simpl.
  assert ((10 * 1024 * 1024 <? size file)%N = false) as -> by by apply N.ltb_ge.
  simpl.
  assert (next_url br ∉ live_urls br) as Hfresh.
  { intros Hin. apply Hwf in Hin. lia. }
  assert (({[next_url br]} ∪ live_urls br) ∖ {[next_url br]} = live_urls br) as Hsame.
  { apply set_eq. intros url.
    rewrite elem_of_difference, elem_of_union, elem_of_singleton.
    split; [intros [[-> | Hin] Hne]; done |].
    intros Hin. split; [by right | by intros ->]. }
  rewrite Hsame. repeat split; try done.
  - intros url Hin. simpl in *. apply Hwf in Hin. lia.
  - apply elem_of_union. by right.
  - intros [= Heq]. subst old. contradiction.
Qed.

End UploadProperties.

(** [preview_url_round_trip] with a preview already showing: its URL
    0 is still held after the new file is cleared. *)
Lemma preview_url_round_trip_witness :
  ImageUpload.acceptable InterfaceSamples.png = true
  ∧ ImageUpload.well_formed InterfaceSamples.one_url
  ∧ let '(st1, br1, _) :=
      ImageUpload.handleFileSelect InterfaceSamples.png InterfaceSamples.previewing
        InterfaceSamples.one_url in
    let '(st2, br2) := ImageUpload.clearFile st1 br1 in
    ImageUpload.live_urls br2 = ImageUpload.live_urls InterfaceSamples.one_url.
Proof.
  assert (ImageUpload.well_formed InterfaceSamples.one_url) as Hwf.
  { intros url Hin. simpl in Hin. apply elem_of_singleton in Hin as ->. simpl. lia. }
  split; [reflexivity | split; [exact Hwf |]].
  pose proof (preview_url_round_trip InterfaceSamples.png InterfaceSamples.previewing
                InterfaceSamples.one_url eq_refl Hwf) as H.
  destruct (ImageUpload.handleFileSelect _ _ _) as [[st1 br1] errors].
  destruct (ImageUpload.clearFile st1 br1) as [st2 br2].
  destruct H as (_ & _ & Hlive & _). exact Hlive.
Defined.

Section ResultPanelProperties.

Import DetectionResults.

Lemma append_empty_r (s : string) : s +:+ "" = s.
Proof.
  induction s as [| c s IH]; [done |]. by rewrite append_cons, IH.
Qed.

Lemma occurs_char_cons (c x : Ascii.ascii) (s : string) :
  ApiService.occurs (String c "") (String x s)
  = (if Ascii.ascii_dec c x then true else false) || ApiService.occurs (String c "") s.
Proof.
  rewrite occurs_unfold, prefix_cons, prefix_empty.
  by destruct (Ascii.ascii_dec c x).
Qed.

Lemma occurs_char_append (c : Ascii.ascii) (a b : string) :
  ApiService.occurs (String c "") (a +:+ b)
  = ApiService.occurs (String c "") a || ApiService.occurs (String c "") b.
Proof.
  induction a as [| x a IH]; [done |].
  rewrite append_cons, !occurs_char_cons, IH. by rewrite orb_assoc.
Qed.

(** What [split('/')] leaves last, for the pieces after a piece under
    construction. *)
Lemma split_slash_last (path piece : string) :
  ApiService.occurs "/" piece = false →
  ∃ dir name,
    last (split_slash piece path) = Some name
    ∧ piece +:+ path = dir +:+ name
    ∧ ApiService.occurs "/" name = false
    ∧ (dir = "" ∨ ∃ d, dir = d +:+ "/")
    ∧ (ApiService.occurs "/" path = false → dir = "").
Proof.
  revert piece. induction path as [| c rest IH]; intros piece Hpiece.
  - exists "", piece. repeat split; try done; [| by left].
    by rewrite append_empty_r.
  - cbn [split_slash]. destruct (Ascii.eqb_spec c ApiService.slash) as [-> | Hne].
    + destruct (IH "" eq_refl) as (dir' & name & Hlast & Hcat & Hclean & Hdir & _).
      exists (piece +:+ "/" +:+ dir'), name. repeat split.
      * by rewrite last_cons, Hlast.
      * rewrite !append_assoc, <- Hcat. reflexivity.
      * exact Hclean.
      * right. destruct Hdir as [-> | [d ->]].
        -- by exists piece.
        -- exists (piece +:+ "/" +:+ d). by rewrite !append_assoc.
      * intros Hnone. change "/" with (String ApiService.slash "") in Hnone.
        rewrite occurs_char_cons in Hnone.
        by destruct (Ascii.ascii_dec ApiService.slash ApiService.slash).
    + assert (ApiService.occurs "/" (piece +:+ String c "") = false) as Hpiece'.
      { change "/" with (String ApiService.slash "") in *.
        rewrite occurs_char_append, Hpiece, occurs_char_cons.
        destruct (Ascii.ascii_dec ApiService.slash c) as [Heq | _]; [| done].
        by destruct Hne. }
      destruct (IH _ Hpiece') as (dir & name & Hlast & Hcat & Hclean & Hdir & Hnone).
      exists dir, name. repeat split; try done.
      * by rewrite append_assoc in Hcat.
      * intros Hpath. apply Hnone.
        change "/" with (String ApiService.slash "") in *.
        rewrite occurs_char_cons in Hpath.
        by apply orb_false_elim in Hpath as [_ ?].
Qed.

(** X15.  The file name shown for a generated file,
    [path.split('/').pop()], is always defined: it is what follows the
    last slash of the path, holds no slash itself, and is the whole
    path when the path has no slash.  Backslashes are not separators:
    a Windows path is shown whole. *)
Theorem file_name_after_last_slash (path : string) :
  ∃ dir name,
    file_name path = Some name
    ∧ path = dir +:+ name
    ∧ ApiService.occurs "/" name = false
    ∧ (dir = "" ∨ ∃ d, dir = d +:+ "/")
    ∧ (ApiService.occurs "/" path = false → name = path).
Proof.
  destruct (split_slash_last path "" eq_refl)
    as (dir & name & Hlast & Hcat & Hclean & Hdir & Hnone).
  exists dir, name. repeat split; try done.
  intros Hpath. rewrite (Hnone Hpath) in Hcat. by symmetry.
Qed.

Ltac explode s H :=
  repeat (destruct s as [| ? s]; simpl in H; try discriminate H).

(** X16.  On a timestamp of the backend's form, four characters of
    year, two of month, two of day, one separator and two each of hour,
    minute and second, [formatTimestamp] gives day/month/year
    hour:minute:second; the separator is dropped whatever it is, and
    anything after the seconds is ignored. *)
Theorem formatTimestamp_rearranges
    (year month day separator hour minute second rest : string) :
  String.length year = 4 → String.length month = 2 → String.length day = 2 →
  String.length separator = 1 →
  String.length hour = 2 → String.length minute = 2 → String.length second = 2 →
  formatTimestamp (year +:+ month +:+ day +:+ separator
                   +:+ hour +:+ minute +:+ second +:+ rest)
  = day +:+ "/" +:+ month +:+ "/" +:+ year +:+ " "
    +:+ hour +:+ ":" +:+ minute +:+ ":" +:+ second.
Proof.
  intros Hyear Hmonth Hday Hseparator Hhour Hminute Hsecond.
  explode year Hyear. explode month Hmonth. explode day Hday.
  explode separator Hseparator. explode hour Hhour. explode minute Hminute.
  explode second Hsecond.
  unfold formatTimestamp, substring.
  destruct rest; reflexivity.
Qed.

End ResultPanelProperties.

(** [formatTimestamp_rearranges] at a capture of 20 December 2024. *)
Lemma formatTimestamp_rearranges_witness :
  DetectionResults.formatTimestamp "20241220_143022" = "20/12/2024 14:30:22".
Proof.
  exact (formatTimestamp_rearranges "2024" "12" "20" "_" "14" "30" "22" ""
           eq_refl eq_refl eq_refl eq_refl eq_refl eq_refl eq_refl).
Defined.

Section HomePanelProperties.

Import AppShell HomePanel.

Lemma click_shown (c : Click) (sh : Shell) :
  shown c →
  (selectedFruit (click c sh) = selectedFruit sh ∨ selectedFruit (click c sh) = "apple")
  ∧ app (click c sh) = app sh
  ∧ activeTab (click c sh) = activeTab sh.
Proof.
  destruct c as [fruit | fruit]; unfold shown, fruits; intros Hin;
    repeat (apply elem_of_cons in Hin as [-> | Hin]; [simpl; auto |]);
    by apply elem_of_nil in Hin.
Qed.

(** X17.  Whatever is clicked on the home panel, cards or buttons, in
    whatever order, the selected fruit stays as it was or becomes
    "apple", the one fruit that is available; the tab and the monitoring
    state are not touched. *)
Theorem only_available_fruit_selected (clicks : list Click) (sh : Shell) :
  Forall shown clicks →
  let sh' := foldl (λ sh c, click c sh) sh clicks in
  (selectedFruit sh' = selectedFruit sh ∨ selectedFruit sh' = "apple")
  ∧ app sh' = app sh
  ∧ activeTab sh' = activeTab sh.
Proof.
  intros Hshown. revert sh.
  induction Hshown as [| c rest Hc _ IH]; intros sh; [simpl; auto |].
  cbn [foldl]. destruct (IH (click c sh)) as (Hselected & Happ & Htab).
  destruct (click_shown c sh Hc) as (Hfirst & Happ' & Htab').
  repeat split.
  - destruct Hselected as [-> | ->]; auto.
  - by rewrite Happ.
  - by rewrite Htab.
Qed.

End HomePanelProperties.

(** [only_available_fruit_selected]: a click on the orange card
    changes nothing, a click on the apple's button selects the apple. *)
Lemma only_available_fruit_selected_witness :
  AppShell.selectedFruit
    (HomePanel.click (HomePanel.card InterfaceSamples.orange) InterfaceSamples.home)
  = "banana"
  ∧ (AppShell.selectedFruit
       (foldl (λ sh c, HomePanel.click c sh) InterfaceSamples.home
          [HomePanel.card InterfaceSamples.orange;
           HomePanel.select_button InterfaceSamples.apple])
     = AppShell.selectedFruit InterfaceSamples.home
     ∨ AppShell.selectedFruit
         (foldl (λ sh c, HomePanel.click c sh) InterfaceSamples.home
            [HomePanel.card InterfaceSamples.orange;
             HomePanel.select_button InterfaceSamples.apple])
       = "apple").
Proof.
  split; [reflexivity |].
  refine (proj1 (only_available_fruit_selected
                   [HomePanel.card InterfaceSamples.orange;
                    HomePanel.select_button InterfaceSamples.apple]
                   InterfaceSamples.home _)).
  repeat constructor; unfold HomePanel.shown, HomePanel.fruits;
    repeat (first [apply elem_of_list_here | apply elem_of_list_further]).
Defined.

Section DiagnosticProperties.

Import DiagnosticPanel.

Variable backend : Probe → Fetched.

Lemma settled_facts (p : Probe) (f : Fetched) :
  is_pending (settled p f) = false
  ∧ endpoint (settled p f) = label p
  ∧ (status (settled p f) = success ↔ response (settled p f) ≠ None).
Proof.
  destruct f as [thrown | [] code text [data | thrown]]; simpl; repeat split; done.
Qed.

Lemma count_pending_app (a b : list DiagnosticResult) :
  count_pending (a ++ b)%list = count_pending a + count_pending b.
Proof. unfold count_pending. by rewrite filter_app, length_app. Qed.

Lemma count_pending_settled (l : list DiagnosticResult) :
  Forall (λ r, is_pending r = false) l → count_pending l = 0.
Proof.
  unfold count_pending. induction 1 as [| r l Hr _ IH]; [done |].
  rewrite filter_cons_False; [exact IH |]. by rewrite Hr.
Qed.

Lemma probe_all_spec (todo : list Probe) (newResults : list DiagnosticResult) :
  Forall (λ r, is_pending r = false) newResults →
  (probe_all backend todo newResults).1
  = (newResults ++ ((λ p, settled p (backend p)) <$> todo))%list
  ∧ Forall (λ st, isRunning st = true ∧ count_pending (results st) ≤ 1)
      (probe_all backend todo newResults).2
  ∧ length (probe_all backend todo newResults).2 = 2 * length todo.
Proof.
  revert newResults. induction todo as [| p rest IH]; intros newResults Hsettled.
  - simpl. by rewrite app_nil_r.
  - cbn [probe_all].
    assert (Forall (λ r, is_pending r = false)
              (newResults ++ [settled p (backend p)])%list) as Hnext.
    { apply Forall_app. split; [done |].
      constructor; [apply settled_facts | constructor]. }
    destruct (IH _ Hnext) as (Hfinal & Hrenders & Hlength).
    destruct (probe_all backend rest _) as [final renders]. simpl in *.
    repeat split.
    + by rewrite Hfinal, <- app_assoc.
    + constructor; [| constructor; [| done]]; simpl; split; try done.
      * rewrite count_pending_app, (count_pending_settled _ Hsettled).
        vm_compute. lia.
      * rewrite (count_pending_settled _ Hnext). lia.
    + lia.
Qed.

(** X18.  [runDiagnostics] ends with [isRunning] false and one result
    for each of the six endpoints, in their order and under the label
    "METHOD /url"; none of them is left pending, and a result is a
    success exactly when it keeps a response body.  While it runs the
    results are set thirteen times, always with [isRunning] true, and
    no array given to [setResults] holds more than one pending
    result. *)
Theorem runDiagnostics_settles :
  let '(renders, final) := runDiagnostics backend in
  isRunning final = false
  ∧ endpoint <$> results final = label <$> endpoints
  ∧ Forall (λ r, is_pending r = false
                 ∧ (status r = success ↔ response r ≠ None)) (results final)
  ∧ Forall (λ st, isRunning st = true ∧ count_pending (results st) ≤ 1) renders
  ∧ length renders = 13.
Proof.
  unfold runDiagnostics.
  destruct (probe_all_spec endpoints [] (Forall_nil_2 _)) as (Hfinal & Hrenders & Hlength).
  destruct (probe_all backend endpoints []) as [final renders].
  cbn [fst snd] in Hfinal, Hrenders, Hlength. rewrite app_nil_l in Hfinal.
  subst final. cbn [results isRunning]. repeat split.
  - rewrite <- list_fmap_compose. apply list_fmap_ext. intros i p _.
    apply settled_facts.
  - apply Forall_fmap, Forall_forall. intros p _.
    split; apply settled_facts.
  - constructor; [| done]. split; [done |]. vm_compute. lia.
  - cbn [length]. by rewrite Hlength.
Qed.

End DiagnosticProperties.

Section UploadRequestProperties.

Import ImageUpload.


End UploadRequestProperties.

Section CameraImageProperties.

Import CameraPanel.

(** X20.  The image of the camera panel is the stream, the latest
    capture or the stock photograph, and never the empty string; with
    the backend disconnected it is the stock photograph, whatever the
    streaming flag and the latest capture are. *)
Theorem getImageSource_never_empty (latestImageUrl : option string) (p : Props) :
  getImageSource latestImageUrl p ≠ ""
  ∧ (getImageSource latestImageUrl p = stream_url
     ∨ Some (getImageSource latestImageUrl p) = latestImageUrl
     ∨ getImageSource latestImageUrl p = default_image)
  ∧ (backendConnected p = false → getImageSource latestImageUrl p = default_image).
Proof.
  unfold getImageSource, present.
  destruct (isStreaming p), (backendConnected p), latestImageUrl as [url |]; simpl;
    try (repeat split; auto; done).
  all: destruct (decide (url = "")) as [-> | Hurl];
    [ rewrite bool_decide_eq_true_2 by done
    | rewrite bool_decide_eq_false_2 by done ]; simpl; repeat split; auto; done.
Qed.

End CameraImageProperties.

(** ** The camera service, further *)

Section CameraControlProperties.

Import CameraService.

Variable device : nat → nat → bool.

(** X21.  On a camera that is running, [toggle_live] only flips the
    flag and returns its new value: no handle is constructed and the
    current one is kept, even when it is not opened (the test is on
    [is_running] alone), and a second call restores the state
    exactly. *)
Theorem toggle_live_running (s : State) :
  is_running s = true →
  let '(on1, s1) := toggle_live device s in
  let '(on2, s2) := toggle_live device s1 in
  on1 = negb (is_live s) ∧ on2 = is_live s ∧ s2 = s
  ∧ cap s1 = cap s ∧ handles_opened s1 = handles_opened s
  ∧ is_running s1 = true.
Proof.
  intros Hrunning. unfold toggle_live. rewrite Hrunning. simpl.
  rewrite Hrunning. simpl. rewrite negb_involutive.
  repeat split. by destruct s.
Qed.

End CameraControlProperties.

(** [toggle_live_running] on a camera that runs with a handle that is
    not opened, and no device to open: live mode is turned on all the
    same. *)
Lemma toggle_live_running_witness :
  (CameraService.toggle_live Samples.camera_absent InterfaceSamples.stalled).1 = true.
Proof.
  pose proof (toggle_live_running Samples.camera_absent InterfaceSamples.stalled eq_refl)
    as H.
  destruct (CameraService.toggle_live Samples.camera_absent InterfaceSamples.stalled)
    as [on1 s1].
  destruct (CameraService.toggle_live Samples.camera_absent s1) as [on2 s2].
  destruct H as (-> & _). reflexivity.
Defined.

Section LiveRunProperties.

Import CameraService.

Variable max_history : nat.
Variable update_raises : DetectionResult → StatsResponse → option StatsResponse.


End LiveRunProperties.

(** ** The classification panel and the two camera panels *)

Section ClassificationPanelProperties.

Import Frontend ClassificationPanel.

(** X24.  A press on a button of the classification panel that can be
    pressed counts exactly one apple and ends the wait for the
    operator, so that neither [Corregir] nor [Confirmar] can be pressed
    again for the same automatic classification, and the manual buttons
    can; a press on a button that cannot be pressed changes nothing. *)
Theorem panel_press_counts_one (b : Button) (s : AppState) :
  (enabled b s = true →
     goodCount (press b s) + badCount (press b s) = S (goodCount s + badCount s)
     ∧ enabled Corregir (press b s) = false
     ∧ enabled Confirmar (press b s) = false
     ∧ enabled BUENA (press b s) = true
     ∧ enabled MALA (press b s) = true)
  ∧ (enabled b s = false → press b s = s).
Proof.
  unfold press. split; intros Henabled; rewrite Henabled; [| done].
  unfold enabled.
  destruct b; simpl;
    unfold AppShell.handleCorrectClassification, AppShell.handleConfirmClassification;
    try destruct (AppShell.is_BUENA (autoClassification s)); simpl;
    rewrite ?andb_false_r; repeat split; lia.
Qed.

End ClassificationPanelProperties.

Section CameraPanelVersions.

Variable percent_one_decimal : Q → string.

(** X25.  The camera panel with the backend's result agrees with the
    first camera panel whenever it has no result to show or is
    processing: status text and status colour are the same. *)
Theorem camera_panel_extends_first (p : CameraPanel.Props) :
  CameraPanel.isProcessing p = true ∨ CameraPanel.detectionResult p = None →
  CameraPanel.getStatusText percent_one_decimal p
  = FirstCameraPanel.getStatusText (CameraPanel.isProcessing p)
      (CameraPanel.lastClassification p)
  ∧ CameraPanel.getStatusColor p
    = FirstCameraPanel.getStatusColor (CameraPanel.isProcessing p)
        (CameraPanel.lastClassification p).
Proof.
  unfold CameraPanel.getStatusText, CameraPanel.getStatusColor,
    FirstCameraPanel.getStatusText, FirstCameraPanel.getStatusColor.
  intros [-> | Hnone]; [done |]. rewrite Hnone.
  destruct (CameraPanel.isProcessing p); [done |].
  by destruct (CameraPanel.lastClassification p).
Qed.

End CameraPanelVersions.

(** [camera_panel_extends_first] on a panel with no result yet. *)
Lemma camera_panel_extends_first_witness :
  CameraPanel.getStatusText (λ _, "0.0") InterfaceSamples.panel_waiting
  = "Clasificada: BUENA".
Proof.
  destruct (camera_panel_extends_first (λ _, "0.0") InterfaceSamples.panel_waiting
              (or_intror eq_refl)) as [-> _].
  reflexivity.
Defined.

Section ExpectOkProperties.

Import ApiService.

Context {A : Type}.

(** X26.  The methods of the API client that throw a fixed message
    ([checkHealth], [getStats], [getDetectionHistory], [resetStats],
    [toggleLiveMode], [startCamera], [stopCamera], [getCameraStatus])
    resolve exactly when the request resolved with an ok response whose
    body could be read, and then with that body; on a response that is
    not ok they reject with the method's message followed by the status
    text, whatever the body holds. *)
Theorem expect_ok_outcomes (error_prefix : string) (fetched : Outcome (Response A)) :
  (∀ body, expect_ok error_prefix fetched = Resolved body
           ↔ ∃ response, fetched = Resolved response
                         ∧ ok response = true ∧ json response = Resolved body)
  ∧ (∀ response, fetched = Resolved response → ok response = false →
       expect_ok error_prefix fetched = Rejected (error_prefix +:+ statusText response)
       ∧ String.prefix error_prefix (error_prefix +:+ statusText response) = true).
Proof.
  unfold expect_ok. split.
  - intros body. destruct fetched as [response | message].
    + destruct (ok response) eqn:Hok; simpl.
      * split; [intros Hjson; by exists response |].
        by intros (response' & [= <-] & _ & Hjson).
      * split; [done |]. intros (response' & [= <-] & Hok' & _). congruence.
    + split; [done |]. by intros (response & [=] & _).
  - intros response -> Hbad. rewrite Hbad. simpl. split; [done |].
    apply prefix_append.
Qed.

End ExpectOkProperties.
